(** * nucleo-logger-console: the console logger of [src/console.ts]

    A shallow embedding of the [ConsoleLogger] class: the option
    sanitising of its constructor, the two side-field derivations
    [getMetadata] and [traceError], the console line formatter
    [handleConsoleFormat] with [stringifyMetadata], and [createChild].

    JavaScript values live in a store of objects, so that the in-place
    default filling of [traceError] and circular metadata can be expressed.
    A string is a Rocq [string]; one character stands for one UTF-16 code
    unit, which is the unit [length], [substr] and [padStart] count in. *)

From Stdlib Require Import ZArith Lia Ascii.
From stdpp Require Import base list strings pretty.

Local Open Scope string_scope.
Local Open Scope list_scope.
Local Open Scope nat_scope.

(** ** String built-ins used by the source *)

Module JSString.

(** [n] copies of [pad], one after the other. *)
Fixpoint copies (n : nat) (pad : string) : string :=
  match n with
  | O => ""
  | S n' => pad +:+ copies n' pad
  end.

(** [String.prototype.substr(start, length)] for non-negative arguments. *)
Definition substr (s : string) (start len : nat) : string :=
  String.substring start len s.

(** [String.prototype.padStart(targetLength, padString)]: nothing is added
    when the string is long enough or the filler is empty; otherwise the
    filler is repeated and cut to the missing length, then put in front. *)
Definition padStart (s : string) (targetLength : nat) (padString : string) : string :=
  let len := String.length s in
  if targetLength <=? len then s
  else if bool_decide (padString = "") then s
  else
    let fillLen := targetLength - len in
    substr (copies fillLen padString) 0 fillLen +:+ s.

(** [sep]-separated concatenation, as [Array.prototype.join]. *)
Fixpoint join (sep : string) (l : list string) : string :=
  match l with
  | [] => ""
  | [x] => x
  | x :: rest => x +:+ sep +:+ join sep rest
  end.

(** [s.replace(re, rep)] for the global regular expression [re] of the
    literal text [pat], and a [rep] without replacement patterns: the
    matches are taken from the left and do not overlap; the empty text
    matches before every character and at the end. [skip] counts the
    characters of a match still to pass. *)
Fixpoint replace_from (pat rep : string) (skip : nat) (s : string) : string :=
  match s with
  | EmptyString => if (skip =? 0) && String.prefix pat "" then rep else ""
  | String c s' =>
      match skip with
      | S k => replace_from pat rep k s'
      | O =>
          if String.prefix pat s then
            match String.length pat with
            | O => rep +:+ String c (replace_from pat rep 0 s')
            | S k => rep +:+ replace_from pat rep k s'
            end
          else String c (replace_from pat rep 0 s')
      end
  end.

Definition replaceAll (pat rep s : string) : string := replace_from pat rep 0 s.

Definition is_line_break (c : ascii) : bool :=
  Ascii.eqb c "010"%char || Ascii.eqb c "013"%char.

(** [s.replace(/[\r\n]+/g, m => before + m + after)]: every run of line
    breaks is put between [before] and [after]. [inRun] tells whether the
    scan is inside a run. *)
Fixpoint wrap_line_breaks (before after : string) (inRun : bool) (s : string) : string :=
  match s with
  | EmptyString => if inRun then after else ""
  | String c s' =>
      if is_line_break c then
        if inRun then String c (wrap_line_breaks before after true s')
        else before +:+ String c (wrap_line_breaks before after true s')
      else
        if inRun then after +:+ String c (wrap_line_breaks before after false s')
        else String c (wrap_line_breaks before after false s')
  end.

(** [s.indexOf(c) != -1]. *)
Fixpoint contains (c : ascii) (s : string) : bool :=
  match s with
  | EmptyString => false
  | String d s' => Ascii.eqb c d || contains c s'
  end.

End JSString.
Import JSString.

(** The characters the source spells with escapes. *)
Definition LF : string := String "010"%char "".
Definition ESC : ascii := "027"%char.
Definition dquote : ascii := "034"%char.

(** ** Values and the object store *)

Definition loc := nat.

(** A JavaScript value. Numbers are the integers of magnitude below
    10^21 that a double holds exactly, which JavaScript prints in full
    decimal; functions, symbols and bigints are not part of the model. *)
Inductive value :=
  | VUndefined
  | VNull
  | VBool (b : bool)
  | VNumber (n : Z)
  | VString (s : string)
  | VRef (l : loc).

(** What an object is besides its named properties: an array owns its
    elements, an [Error] its message and its captured stack (both own but
    not enumerable). *)
Inductive kind :=
  | KObject
  | KArray (elems : list value)
  | KError (message stack : string).

(** [props] are the own enumerable string-keyed properties, in enumeration
    order, other than the indices and the length of an array. *)
Record object := Object { okind : kind; props : list (string * value) }.

Abbreviation heap := (list object).

Global Instance value_eq_dec : EqDecision value.
Proof. solve_decision. Defined.

Fixpoint lookup_prop (k : string) (ps : list (string * value)) : option value :=
  match ps with
  | [] => None
  | (k', v) :: rest => if bool_decide (k = k') then Some v else lookup_prop k rest
  end.

Fixpoint set_prop (k : string) (v : value) (ps : list (string * value)) : list (string * value) :=
  match ps with
  | [] => [(k, v)]
  | (k', v') :: rest =>
      if bool_decide (k = k') then (k, v) :: rest else (k', v') :: set_prop k v rest
  end.

(** The array index a property name denotes: a name is an index when it is
    the decimal numeral of a number, without leading zeros. *)
Definition digit (c : ascii) : option nat :=
  let n := nat_of_ascii c in
  if (48 <=? n) && (n <=? 57) then Some (n - 48) else None.

Fixpoint digits (acc : nat) (s : string) : option nat :=
  match s with
  | EmptyString => Some acc
  | String c s' => d ← digit c; digits (10 * acc + d) s'
  end.

Definition array_index (k : string) : option nat :=
  match k with
  | EmptyString => None
  | String c s' =>
      if Ascii.eqb c "0"%char then (if bool_decide (s' = "") then Some 0 else None)
      else digits 0 k
  end.

Definition intrinsic (kd : kind) (k : string) : option value :=
  match kd with
  | KObject => None
  | KArray elems =>
      if bool_decide (k = "length") then Some (VNumber (Z.of_nat (length elems)))
      else i ← array_index k; elems !! i
  | KError message stack =>
      if bool_decide (k = "message") then Some (VString message)
      else if bool_decide (k = "stack") then Some (VString stack)
      else None
  end.

Definition get_own (o : object) (k : string) : value :=
  match intrinsic (okind o) k with
  | Some v => v
  | None => default VUndefined (lookup_prop k (props o))
  end.

(** [v.k], a property read. The source reads properties only of values it
    has tested to be truthy, so the [TypeError] of reading from [undefined]
    or [null] does not arise; a primitive has none of the properties the
    source asks for, and an address outside the store reads as [undefined]. *)
Definition Get (h : heap) (v : value) (k : string) : value :=
  match v with
  | VRef l => match h !! l with Some o => get_own o k | None => VUndefined end
  | _ => VUndefined
  end.

(** [o.k = v], for the ordinary names the source assigns ([metadata],
    [error]): the property is overwritten in place or appended. *)
Definition Put (h : heap) (l : loc) (k : string) (v : value) : heap :=
  match h !! l with
  | Some o => <[l := Object (okind o) (set_prop k v (props o))]> h
  | None => h
  end.

(** A new object: it takes the next free address. *)
Definition alloc (h : heap) (o : object) : loc * heap := (length h, h ++ [o]).

(** [ToBoolean]: what [!v], [v || w] and [if (v)] test. *)
Definition ToBoolean (v : value) : bool :=
  match v with
  | VUndefined | VNull => false
  | VBool b => b
  | VNumber n => negb (n =? 0)%Z
  | VString s => negb (bool_decide (s = ""))
  | VRef _ => true
  end.

(** [Object.keys]: the indices of an array, then the named properties. *)
Definition Object_keys (o : object) : list string :=
  match okind o with
  | KArray elems => (pretty <$> seq 0 (length elems)) ++ (fst <$> props o)
  | _ => fst <$> props o
  end.

(** ** Exceptions *)

(** An exception is known by its class; the text of its message is the
    engine's and is not modelled. *)
Inductive exn :=
  | TypeError
  | RangeError.

Inductive result (A : Type) :=
  | Ok (a : A)
  | Throw (e : exn).
Arguments Ok {A} a.
Arguments Throw {A} e.

Global Instance result_ret : MRet result := λ A a, Ok a.
Global Instance result_bind : MBind result := λ A B f r,
  match r with
  | Ok a => f a
  | Throw e => Throw e
  end.
Global Instance result_fmap : FMap result := λ A B f r,
  match r with
  | Ok a => Ok (f a)
  | Throw e => Throw e
  end.

(** ** [JSON.stringify] *)

Module JSON.

Definition hex_digit (n : N) : ascii :=
  match String.get (N.to_nat n) "0123456789abcdef" with
  | Some c => c
  | None => "0"%char
  end.

(** One code unit inside a JSON string literal ([QuoteJSONString]). *)
Definition quote_code_unit (c : ascii) : string :=
  if Ascii.eqb c dquote then String "\"%char (String dquote "")
  else if Ascii.eqb c "\"%char then "\\"
  else if Ascii.eqb c "008"%char then "\b"
  else if Ascii.eqb c "012"%char then "\f"
  else if Ascii.eqb c "010"%char then "\n"
  else if Ascii.eqb c "013"%char then "\r"
  else if Ascii.eqb c "009"%char then "\t"
  else if (N_of_ascii c <? 32)%N then
    "\u00" +:+ String (hex_digit (N_of_ascii c / 16)) (String (hex_digit (N_of_ascii c mod 16)) "")
  else String c "".

Fixpoint quote_body (s : string) : string :=
  match s with
  | EmptyString => ""
  | String c s' => quote_code_unit c +:+ quote_body s'
  end.

Definition QuoteJSONString (s : string) : string :=
  String dquote (quote_body s +:+ String dquote "").

(** The [TypeError] of a circular structure, and the [RangeError] of a
    call stack that is used up. *)
Definition circular : exn := TypeError.
Definition too_deep : exn := RangeError.

(** [SerializeJSONProperty]: [stack] holds the objects being serialised
    around [v]; meeting one of them again is the circular-structure
    [TypeError]. [None] is the [undefined] of a value that has no JSON
    text. The recursion is on [fuel], the nesting depth still allowed. *)
Fixpoint SerializeJSONProperty (fuel : nat) (h : heap) (stack : list loc) (v : value)
  : result (option string) :=
  match v with
  | VUndefined => Ok None
  | VNull => Ok (Some "null")
  | VBool b => Ok (Some (if b then "true" else "false"))
  | VNumber n => Ok (Some (pretty n))
  | VString s => Ok (Some (QuoteJSONString s))
  | VRef l =>
      match h !! l with
      | None => Ok None
      | Some o =>
          if bool_decide (l ∈ stack) then Throw circular
          else
            match fuel with
            | O => Throw too_deep
            | S fuel' =>
                let ser := SerializeJSONProperty fuel' h (l :: stack) in
                match okind o with
                | KArray elems =>
                    parts ← mapM (λ e, default "null" <$> ser e) elems;
                    Ok (Some ("[" +:+ join "," parts +:+ "]"))
                | _ =>
                    parts ← mapM (λ kv, fmap (M := option)
                                          (λ s, QuoteJSONString kv.1 +:+ ":" +:+ s)
                                        <$> ser kv.2) (props o);
                    Ok (Some ("{" +:+ join "," (omap id parts) +:+ "}"))
                end
            end
      end
  end.

(** [JSON.stringify(v)]. No chain of distinct objects is longer than the
    store, so this fuel is never used up ([stringify_fuel] below). *)
Definition stringify (h : heap) (v : value) : result (option string) :=
  SerializeJSONProperty (S (length h)) h [] v.

End JSON.

(** ** [ToString], for string concatenation and template literals *)

(** Objects print as their default [toString] makes them; an array joins
    its elements, printing nothing for one it is already inside. *)
Fixpoint ToString_go (fuel : nat) (h : heap) (stack : list loc) (v : value) : string :=
  match v with
  | VUndefined => "undefined"
  | VNull => "null"
  | VBool b => if b then "true" else "false"
  | VNumber n => pretty n
  | VString s => s
  | VRef l =>
      match h !! l with
      | None => "undefined"
      | Some o =>
          match okind o with
          | KObject => "[object Object]"
          | KError message _ =>
              if bool_decide (message = "") then "Error" else "Error: " +:+ message
          | KArray elems =>
              if bool_decide (l ∈ stack) then ""
              else
                match fuel with
                | O => ""
                | S fuel' =>
                    join "," ((λ e, match e with
                                    | VUndefined | VNull => ""
                                    | _ => ToString_go fuel' h (l :: stack) e
                                    end) <$> elems)
                end
          end
      end
  end.

Definition ToString (h : heap) (v : value) : string :=
  ToString_go (S (length h)) h [] v.

(** ** The log record and the sink *)

(** The [info] object a winston format receives. [level] and [message] are
    strings by construction; the other fields are [undefined] when absent. *)
Record Info := {
  level : string;
  message : string;
  timestamp : value;
  scope : value;
  metadata : value;
  stackTrace : value
}.

(** An object literal: its properties in the order written. *)
Definition literal := list (string * value).

(** The two formats the constructor chooses between. The console format is
    a closure over the logger it was created in, of which it reads [name]. *)
Inductive Format :=
  | ConsoleFormat (name : string)
  | JsonFormat.

(** A [winston.Logger] as this class obtains one: created by
    [winston.createLogger], or derived by [child({ scope })]. *)
Inductive winston_Logger :=
  | createLogger (level : string) (format : Format)
  | child (parent : winston_Logger) (scope : string).

(** ** The class *)

Module Opt.
(** The options of the constructor. *)
Record t := {
  name : string;
  logLevel : option string;
  format : option string;
  debugMode : option bool;
  _child : option winston_Logger
}.
End Opt.

Record ConsoleLogger := {
  name : string;
  debugMode : bool;
  logger : winston_Logger
}.

Definition SCOPE_MAX_LEN : nat := 18.

Section ConsoleLogger.

(** What the environment supplies: the clock reading that
    [format.timestamp] stores, the escape sequences the colorizer puts
    around a text of a given level, the stack an [Error] captures at the
    call site, and the line of the JSON format. *)
Variable now : string.
Variables colorOpen colorClose : string → string.
Variable callSiteStack : string.
Variable format_json : heap → Info → result string.

(** The sanitised log level (the [switch] of the constructor). *)
Definition sanitize (logLevel : option string) : string :=
  match logLevel with
  | Some l =>
      if bool_decide (l = "debug") then l
      else if bool_decide (l = "error") then l
      else if bool_decide (l = "info") then l
      else if bool_decide (l = "warn") then l
      else "info"
  | None => "info"
  end.

(** [new ConsoleLogger(options)]; the second component is the options
    object as the constructor leaves it, its [logLevel] overwritten. *)
Definition new_ConsoleLogger (options : Opt.t) : ConsoleLogger * Opt.t :=
  let debugMode := bool_decide (Opt.debugMode options = Some true) in
  let name := Opt.name options in
  let logFmt :=
    if bool_decide (Opt.format options = Some "console") then ConsoleFormat name
    else JsonFormat in
  let logLevel := sanitize (Opt.logLevel options) in
  let options :=
    {| Opt.name := Opt.name options; Opt.logLevel := Some logLevel;
       Opt.format := Opt.format options; Opt.debugMode := Opt.debugMode options;
       Opt._child := Opt._child options |} in
  let logger :=
    match Opt._child options with
    | Some c => c
    | None => createLogger logLevel logFmt
    end in
  ({| name := name; debugMode := debugMode; logger := logger |}, options).

Definition getMetadata (h : heap) (options : option loc) : option literal :=
  match options with
  | None => None
  | Some o =>
      if negb (ToBoolean (Get h (VRef o) "metadata")) then None
      else Some [("metadata", Get h (VRef o) "metadata")]
  end.

Definition traceError (this : ConsoleLogger) (options : option loc) (h : heap)
  : option literal * heap :=
  if negb (debugMode this) then (None, h)
  else
    let '(o, h) :=
      match options with
      | Some o => (o, h)
      | None => alloc h (Object KObject [])
      end in
    let h :=
      if negb (ToBoolean (Get h (VRef o) "metadata")) then
        let '(m, h) := alloc h (Object KObject []) in Put h o "metadata" (VRef m)
      else h in
    let h :=
      if negb (ToBoolean (Get h (VRef o) "error")) then
        let '(e, h) := alloc h (Object (KError "" callSiteStack) []) in
        Put h o "error" (VRef e)
      else h in
    (Some [("stackTrace", Get h (Get h (VRef o) "error") "stack");
           ("metadata", Get h (VRef o) "metadata")], h).

Definition stringifyMetadata (h : heap) (info : Info) : result string :=
  match metadata info with
  | VUndefined | VNull => Ok ""
  | VString m => Ok (" " +:+ m)
  | VRef l =>
      match h !! l with
      | None => Ok ""
      | Some o =>
          match okind o with
          | KArray elems =>
              if length elems <=? 0 then Ok ""
              else j ← JSON.stringify h (VRef l);
                   Ok (" " +:+ ToString h (from_option VString VUndefined j))
          | _ =>
              if 0 <? length (Object_keys o) then
                j ← JSON.stringify h (VRef l);
                Ok (" " +:+ ToString h (from_option VString VUndefined j))
              else Ok ""
          end
      end
  | VBool _ | VNumber _ => Ok ""
  end.

(** The column of the level label: [info.level.toString().padStart(15, " ")]. *)
Definition levelColumn (level : string) : string := padStart level 15 " ".

(** The column of the scope. *)
Definition scopeColumn (scope : string) : string :=
  if SCOPE_MAX_LEN <? String.length scope then substr scope 0 SCOPE_MAX_LEN
  else padStart scope SCOPE_MAX_LEN " ".

(** The suffix of the metadata, as the callback of [printf] computes it. *)
Definition metadataSuffix (h : heap) (info : Info) : result string :=
  metadata ← stringifyMetadata h info;
  Ok (if negb (bool_decide (metadata = "")) then LF +:+ "  > [metadata]" +:+ metadata
      else metadata).

Definition stackTraceSuffix (h : heap) (info : Info) : string :=
  if ToBoolean (stackTrace info) then
    LF +:+ "  > [stackTrace] " +:+ ToString h (stackTrace info)
  else "".

(** The scope of lines 139-145: [info.scope || this.name], cut or padded.
    A truthy scope that is not a string has neither [substr] nor
    [padStart]: calling one of them is a [TypeError]. *)
Definition scopeField (this_name : string) (info : Info) : result string :=
  match (if ToBoolean (scope info) then scope info else VString this_name) with
  | VString scope => Ok (scopeColumn scope)
  | _ => Throw TypeError
  end.

(** The callback given to [format.printf]. *)
Definition printf_callback (this_name : string) (h : heap) (info : Info) : result string :=
  metadata ← metadataSuffix h info;
  let stackTrace := stackTraceSuffix h info in
  let level := levelColumn (level info) in
  scope ← scopeField this_name info;
  Ok ("[" +:+ ToString h (timestamp info) +:+ "] " +:+ level +:+ ": " +:+ scope
        +:+ " | " +:+ message info +:+ metadata +:+ stackTrace).

(** [format.timestamp({})]: a record without a timestamp gets the clock
    reading, [if (!info.timestamp) info.timestamp = ...]. *)
Definition format_timestamp (info : Info) : Info :=
  {| level := level info; message := message info;
     timestamp := if ToBoolean (timestamp info) then timestamp info else VString now;
     scope := scope info; metadata := metadata info; stackTrace := stackTrace info |}.

(** The colorizer wraps a text in the escape sequences of a level: this is
    what it returns for a text that is not empty, has one line and does not
    hold the closing sequence, as the name of a level is. *)
Definition colorize (lookup text : string) : string :=
  colorOpen lookup +:+ text +:+ colorClose lookup.

(** The colorizer on every text, for a level of one style: the empty text
    is returned as it is; a closing sequence inside the text is replaced
    by the opening one; when the text has a line feed, the colour is
    closed before every run of line breaks and opened again after it. *)
Definition paint (lookup text : string) : string :=
  let open := colorOpen lookup in
  let close := colorClose lookup in
  if bool_decide (text = "") then text
  else
    let newLinesPresent := contains "010"%char text in
    let str := open +:+ replaceAll close open text +:+ close in
    if newLinesPresent then wrap_line_breaks close open false str else str.

(** [format.colorize({ all: true })]: the level and the message, each in
    the colour of the level. *)
Definition format_colorize_all (info : Info) : Info :=
  {| level := paint (level info) (level info);
     message := paint (level info) (message info);
     timestamp := timestamp info; scope := scope info;
     metadata := metadata info; stackTrace := stackTrace info |}.

(** [handleConsoleFormat]: the three formats combined, in order. *)
Definition handleConsoleFormat (this_name : string) (h : heap) (info : Info) : result string :=
  printf_callback this_name h (format_colorize_all (format_timestamp info)).

Definition transform (fmt : Format) (h : heap) (info : Info) : result string :=
  match fmt with
  | ConsoleFormat this_name => handleConsoleFormat this_name h info
  | JsonFormat => format_json h info
  end.

(** Whether a message holds a token of winston's [formatRegExp],
    [/%[scdjifoO%]/]: a percent sign and one of these characters. *)
Fixpoint has_token (s : string) : bool :=
  match s with
  | EmptyString => false
  | String c s' =>
      (Ascii.eqb c "%"%char &&
       match s' with
       | String d _ => contains d "scdjifoO%"
       | EmptyString => false
       end)
      || has_token s'
  end.

(** The record [log(level, msg, meta)] of the sink builds. For a message
    without a token it is [Object.assign({}, meta, { level, message })]:
    the side fields, then the level and the message. For a message with a
    token the side fields are left to the interpolation of the message
    and are not in the record. The side fields of this class have the keys
    [metadata] and [stackTrace] only. *)
Definition record (lvl msg : string) (meta : option literal) : Info :=
  let meta := if has_token msg then None else meta in
  let field k :=
    match meta with
    | Some ps => default VUndefined (lookup_prop k ps)
    | None => VUndefined
    end in
  {| level := lvl; message := msg; timestamp := field "timestamp";
     scope := field "scope"; metadata := field "metadata";
     stackTrace := field "stackTrace" |}.

(** A child tags the record, as [Object.assign({}, { scope }, info)]: the
    record gets the scope of the child unless it has one of its own. *)
Definition tag (s : string) (info : Info) : Info :=
  {| level := level info; message := message info; timestamp := timestamp info;
     scope := match scope info with VUndefined => VString s | v => v end;
     metadata := metadata info; stackTrace := stackTrace info |}.

(** [write]: a child hands the tagged record to its parent; the created
    logger runs its format, whose exceptions reach the caller. The result
    is the line given to the transport. *)
Fixpoint write (w : winston_Logger) (h : heap) (info : Info) : result string :=
  match w with
  | createLogger _ fmt => transform fmt h info
  | child parent s => write parent h (tag s info)
  end.

Definition winston_log (w : winston_Logger) (lvl msg : string) (meta : option literal)
    (h : heap) : result string :=
  write w h (record lvl msg meta).

Definition debug (this : ConsoleLogger) (message : string) (options : option loc)
    (h : heap) : result string :=
  winston_log (logger this) "debug" message (getMetadata h options) h.

Definition error (this : ConsoleLogger) (message : string) (options : option loc)
    (h : heap) : result string * heap :=
  let '(meta, h) := traceError this options h in
  (winston_log (logger this) "error" message meta h, h).

Definition info (this : ConsoleLogger) (message : string) (options : option loc)
    (h : heap) : result string :=
  winston_log (logger this) "info" message (getMetadata h options) h.

Definition warn (this : ConsoleLogger) (message : string) (options : option loc)
    (h : heap) : result string :=
  winston_log (logger this) "warn" message (getMetadata h options) h.

Definition createChild (this : ConsoleLogger) (scope : string) : ConsoleLogger :=
  (new_ConsoleLogger
     {| Opt.name := name this; Opt.logLevel := None; Opt.format := None;
        Opt.debugMode := None; Opt._child := Some (child (logger this) scope) |}).1.

End ConsoleLogger.

(** The level a winston logger is configured with and the format it runs:
    a child is a view on its parent and has both from it. *)
Fixpoint winston_level (w : winston_Logger) : string :=
  match w with
  | createLogger lvl _ => lvl
  | child parent _ => winston_level parent
  end.

Fixpoint winston_format (w : winston_Logger) : Format :=
  match w with
  | createLogger _ fmt => fmt
  | child parent _ => winston_format parent
  end.

(** ** Colour-control sequences and visible width *)

Module Ansi.

(** The number of characters of [s] a terminal shows: an escape sequence
    runs from [ESC] to its final [m] and shows nothing. [inEscape] tells
    whether the scan starts inside a sequence. *)
Fixpoint visible (inEscape : bool) (s : string) : nat :=
  match s with
  | EmptyString => 0
  | String c s' =>
      if inEscape then visible (negb (Ascii.eqb c "m"%char)) s'
      else if Ascii.eqb c ESC then visible true s'
      else S (visible false s')
  end.

Definition visibleLength (s : string) : nat := visible false s.

(** Whether a scan of [s] ends inside an escape sequence. *)
Fixpoint pending (inEscape : bool) (s : string) : bool :=
  match s with
  | EmptyString => inEscape
  | String c s' =>
      if inEscape then pending (negb (Ascii.eqb c "m"%char)) s'
      else pending (Ascii.eqb c ESC) s'
  end.

(** [s] is made of complete escape sequences only. *)
Definition zeroWidth (s : string) : bool :=
  (visible false s =? 0) && negb (pending false s).

(** [s] has no escape character. *)
Fixpoint plain (s : string) : bool :=
  match s with
  | EmptyString => true
  | String c s' => negb (Ascii.eqb c ESC) && plain s'
  end.

(** The sequence that selects graphic rendition [n]. *)
Definition sgr (n : string) : string := String ESC ("[" +:+ n +:+ "m").

End Ansi.

(** ** An environment for closed examples *)

Module Env.

Definition now : string := "2021-03-04T05:06:07.089Z".

(** The colours winston gives the four levels by default, as the escape
    sequences of the colors package. *)
Definition colorOpen (lvl : string) : string :=
  if bool_decide (lvl = "error") then Ansi.sgr "31"
  else if bool_decide (lvl = "warn") then Ansi.sgr "33"
  else if bool_decide (lvl = "info") then Ansi.sgr "32"
  else if bool_decide (lvl = "debug") then Ansi.sgr "34"
  else "".

Definition colorClose (lvl : string) : string :=
  if bool_decide (lvl ∈ ["error"; "warn"; "info"; "debug"]) then Ansi.sgr "39" else "".

Definition callSiteStack : string :=
  "Error" +:+ LF +:+ "    at ConsoleLogger.traceError (console.ts:109:29)".

(** A stand-in for the line of the JSON format, which is winston's; no
    property below depends on it. *)
Definition format_json (h : heap) (info : Info) : result string :=
  let fields :=
    [("scope", scope info); ("stackTrace", stackTrace info);
     ("metadata", metadata info); ("level", VString (level info));
     ("message", VString (message info)); ("timestamp", VString now)] in
  let '(l, h) := alloc h (Object KObject fields) in
  from_option id "" <$> JSON.stringify h (VRef l).

Definition options (format : option string) (debugMode : option bool) : Opt.t :=
  {| Opt.name := "svc"; Opt.logLevel := Some "debug"; Opt.format := format;
     Opt.debugMode := debugMode; Opt._child := None |}.

(** [new ConsoleLogger({ name: "svc", logLevel: "debug", format: "console" })] *)
Definition svc : ConsoleLogger := (new_ConsoleLogger (options (Some "console") None)).1.

(** The same with [debugMode: true]. *)
Definition svc_debug : ConsoleLogger :=
  (new_ConsoleLogger (options (Some "console") (Some true))).1.

Definition debug := debug now colorOpen colorClose format_json.
Definition info := info now colorOpen colorClose format_json.
Definition warn := warn now colorOpen colorClose format_json.
Definition error := error now colorOpen colorClose callSiteStack format_json.
Definition colorize := colorize colorOpen colorClose.

End Env.

(** ** Notions the properties are stated with *)

(** The four names the constructor lets through. *)
Definition valid_level (l : option string) : Prop :=
  l = Some "debug" ∨ l = Some "info" ∨ l = Some "warn" ∨ l = Some "error".

(** One default-filling step of [traceError]: [if (!o.k) o.k = <new object>]. *)
Definition fill_default (o : loc) (k : string) (dflt : object) (h : heap) : heap :=
  if negb (ToBoolean (Get h (VRef o) k)) then
    let '(n, h) := alloc h dflt in Put h o k (VRef n)
  else h.

(** An array without elements, or an object without keys. *)
Definition empty (o : object) : bool :=
  match okind o with
  | KArray elems => bool_decide (elems = [])
  | _ => bool_decide (Object_keys o = [])
  end.

(** The record as the format of the created logger receives it: tagged by
    every child on the way. *)
Fixpoint tagged (w : winston_Logger) (info : Info) : Info :=
  match w with
  | createLogger _ _ => info
  | child parent s => tagged parent (tag s info)
  end.

(** The metadata of the specification: an object with one key, a string,
    an empty object and an empty array. *)
Definition sample_store : heap :=
  [Object KObject [("a", VNumber 1)]; Object KObject []; Object (KArray []) []].

Definition sample (m : value) : Info :=
  {| level := "info"; message := "tick"; timestamp := VUndefined; scope := VUndefined;
     metadata := m; stackTrace := VUndefined |}.

(** A store with options that hold metadata and an error. *)
Definition supplied_store : heap :=
  [Object KObject [("metadata", VRef 1); ("error", VRef 2)];
   Object KObject [("code", VNumber 5)];
   Object (KError "boom" "Error: boom") []].

(** The record the callback of [printf] receives from a logger: tagged by
    the children on the way, stamped and coloured. *)
Definition formatted (now : string) (colorOpen colorClose : string → string)
    (w : winston_Logger) (info : Info) : Info :=
  format_colorize_all colorOpen colorClose (format_timestamp now (tagged w info)).

(** The metadata among the side fields. *)
Definition side_metadata (meta : option literal) : value :=
  match meta with
  | Some ps => default VUndefined (lookup_prop "metadata" ps)
  | None => VUndefined
  end.

(** Metadata that [stringifyMetadata] gives to [JSON.stringify], an object
    with keys or an array with elements, and on which that fails with [e]. *)
Definition failing (h : heap) (m : value) (e : exn) : Prop :=
  ∃ l o, m = VRef l ∧ h !! l = Some o ∧ empty o = false ∧
         JSON.stringify h (VRef l) = Throw e.

(** The side fields of this class: none, the metadata, or the stack trace
    and the metadata. *)
Definition of_this_class (meta : option literal) : Prop :=
  meta = None ∨ (∃ m, meta = Some [("metadata", m)]) ∨
  ∃ a b, meta = Some [("stackTrace", a); ("metadata", b)].

(** * Properties *)

(** ** Strings *)

Section StringFacts.

Implicit Types (s t : string) (n : nat) (c : ascii).

Lemma app_String c s t : String c s +:+ t = String c (s +:+ t).
Proof. reflexivity. Qed.

Lemma app_empty_l t : "" +:+ t = t.
Proof. reflexivity. Qed.

Lemma length_append s t : String.length (s +:+ t) = String.length s + String.length t.
Proof.
  induction s as [|c s IH]; [reflexivity|].
  rewrite app_String. simpl. by rewrite IH.
Qed.

Lemma copies_space_S n : copies (S n) " " = String " "%char (copies n " ").
Proof. reflexivity. Qed.

Lemma length_copies_space n : String.length (copies n " ") = n.
Proof.
  induction n as [|n IH]; [reflexivity|].
  rewrite copies_space_S. simpl. by rewrite IH.
Qed.

Lemma substring_whole s : String.substring 0 (String.length s) s = s.
Proof. induction s as [|c s IH]; simpl; [reflexivity | by rewrite IH]. Qed.

(** Cutting at a length the string has splits it in two. *)
Lemma substring_split n s :
  n ≤ String.length s →
  ∃ rest, s = String.substring 0 n s +:+ rest ∧
          String.length (String.substring 0 n s) = n.
Proof.
  revert s. induction n as [|n IH]; intros s Hn.
  - exists s. by destruct s.
  - destruct s as [|c s]; simpl in Hn; [lia|].
    destruct (IH s) as (rest & Hs & Hlen); [lia|].
    exists rest. simpl. rewrite app_String, Hlen. by rewrite <- Hs.
Qed.

(** With a one-space filler, [padStart] puts the missing spaces in front. *)
Lemma padStart_space s n :
  padStart s n " " = copies (n - String.length s) " " +:+ s.
Proof.
  unfold padStart. destruct (n <=? String.length s) eqn:Hle.
  - apply Nat.leb_le in Hle. by replace (n - String.length s) with 0 by lia.
  - rewrite bool_decide_false by discriminate.
    unfold substr.
    pose proof (substring_whole (copies (n - String.length s) " ")) as Hcut.
    rewrite length_copies_space in Hcut. by rewrite Hcut.
Qed.

Lemma length_padStart_space s n :
  String.length (padStart s n " ") = n `max` String.length s.
Proof. rewrite padStart_space, length_append, length_copies_space. lia. Qed.

End StringFacts.

(** ** The scope column *)

(** C6. Whatever the scope [s] is, its column is 18 characters wide: a
    scope longer than 18 is cut to its first 18 characters, every other
    scope has the missing spaces put in front of it. *)
Theorem scopeColumn_width (s : string) :
  (18 < String.length s →
     scopeColumn s = substr s 0 18 ∧ ∃ rest, s = scopeColumn s +:+ rest) ∧
  (String.length s ≤ 18 →
     scopeColumn s = copies (18 - String.length s) " " +:+ s) ∧
  String.length (scopeColumn s) = 18.
Proof.
  unfold scopeColumn, SCOPE_MAX_LEN.
  destruct (18 <? String.length s) eqn:Hlong.
  - apply Nat.ltb_lt in Hlong.
    destruct (substring_split 18 s) as (rest & Hs & Hlen); [lia|].
    unfold substr. split; [|split].
    + intros _. split; [done | by exists rest].
    + lia.
    + done.
  - apply Nat.ltb_ge in Hlong. split; [|split].
    + lia.
    + intros _. apply padStart_space.
    + rewrite length_padStart_space. lia.
Qed.

(** The two scopes the specification works out. *)
Example scopeColumn_abc : scopeColumn "abc" = "               abc".
Proof. reflexivity. Qed.

Example scopeColumn_25 :
  scopeColumn "abcdefghijklmnopqrstuvwxy" = "abcdefghijklmnopqr".
Proof. reflexivity. Qed.

(** ** The level column *)

Section AnsiFacts.

Import Ansi.
Implicit Types (s t : string) (b : bool).

Lemma visible_app b s t :
  visible b (s +:+ t) = visible b s + visible (pending b s) t.
Proof.
  revert b. induction s as [|c s IH]; intros b; [reflexivity|].
  rewrite app_String. simpl.
  destruct b; [apply IH|].
  destruct (Ascii.eqb c ESC); simpl; by rewrite IH.
Qed.

Lemma pending_app b s t : pending b (s +:+ t) = pending (pending b s) t.
Proof.
  revert b. induction s as [|c s IH]; intros b; [reflexivity|].
  rewrite app_String. simpl. destruct b; apply IH.
Qed.

Lemma plain_visible s :
  plain s = true → visible false s = String.length s ∧ pending false s = false.
Proof.
  induction s as [|c s IH]; simpl; [done|].
  intros [Hc Hs]%andb_true_iff. apply negb_true_iff in Hc. rewrite Hc.
  destruct (IH Hs) as [-> ->]. done.
Qed.

Lemma plain_copies_space n : plain (copies n " ") = true.
Proof. induction n as [|n IH]; [reflexivity|]. rewrite copies_space_S. simpl. exact IH. Qed.

Lemma zeroWidth_inv s : zeroWidth s = true → visible false s = 0 ∧ pending false s = false.
Proof.
  unfold zeroWidth. intros [Hv Hp]%andb_true_iff.
  apply Nat.eqb_eq in Hv. apply negb_true_iff in Hp. done.
Qed.

(** What shows of a label between two runs of escape sequences. *)
Lemma visible_wrapped s1 t s2 :
  zeroWidth s1 = true → plain t = true → zeroWidth s2 = true →
  visibleLength (s1 +:+ t +:+ s2) = String.length t.
Proof.
  intros [H1 P1]%zeroWidth_inv [Ht Pt]%plain_visible [H2 _]%zeroWidth_inv.
  unfold visibleLength.
  rewrite visible_app, H1, P1, visible_app, Ht, Pt, H2. lia.
Qed.

End AnsiFacts.

(** On a text that is not empty, has no line feed and does not hold the
    closing sequence, the colorizer only wraps. *)
Lemma paint_one_line (colorOpen colorClose : string → string) (lookup text : string) :
  text ≠ "" → contains "010"%char text = false →
  replaceAll (colorClose lookup) (colorOpen lookup) text = text →
  paint colorOpen colorClose lookup text = colorize colorOpen colorClose lookup text.
Proof.
  intros Htext Hline Hclose. unfold paint, colorize.
  by rewrite bool_decide_false, Hline, Hclose.
Qed.

(** The level the callback of [printf] pads is the coloured one. *)
Lemma formatted_level (now : string) (colorOpen colorClose : string → string) (info : Info) :
  level info ≠ "" → contains "010"%char (level info) = false →
  replaceAll (colorClose (level info)) (colorOpen (level info)) (level info) = level info →
  level (format_colorize_all colorOpen colorClose (format_timestamp now info))
  = colorize colorOpen colorClose (level info) (level info).
Proof. intros. cbn [level format_colorize_all format_timestamp]. by apply paint_one_line. Qed.

(** The four levels in the default colours. *)
Example paint_levels :
  Forall (λ lvl, paint Env.colorOpen Env.colorClose lvl lvl = Env.colorize lvl lvl)
    ["debug"; "info"; "warn"; "error"].
Proof. repeat constructor. Qed.

(** C1, as the code has it. The label of a level, wrapped by the colorizer
    in escape sequences, is padded on the left to 15 characters with the
    escape characters counted: what shows of the column is that many
    characters narrower than 15, and a label shorter than 15 shows in a
    field of 15 only if the colorizer added nothing. *)
Theorem levelColumn_pads_raw_length (colorOpen colorClose : string → string) (lvl : string) :
  Ansi.zeroWidth (colorOpen lvl) = true →
  Ansi.zeroWidth (colorClose lvl) = true →
  Ansi.plain lvl = true →
  let raw := colorize colorOpen colorClose lvl lvl in
  levelColumn raw = copies (15 - String.length raw) " " +:+ raw ∧
  String.length (levelColumn raw) = 15 `max` String.length raw ∧
  Ansi.visibleLength (levelColumn raw) = (15 - String.length raw) + String.length lvl ∧
  (String.length lvl < 15 → Ansi.visibleLength (levelColumn raw) = 15 →
     String.length raw = String.length lvl).
Proof.
  intros Hopen Hclose Hlvl raw. unfold levelColumn.
  assert (Ansi.visibleLength (padStart raw 15 " ")
          = (15 - String.length raw) + String.length lvl) as Hvisible.
  { rewrite padStart_space. unfold Ansi.visibleLength.
    rewrite visible_app.
    destruct (plain_visible _ (plain_copies_space (15 - String.length raw))) as [-> ->].
    rewrite length_copies_space. f_equal.
    by apply visible_wrapped. }
  split; [apply padStart_space|]. split; [apply length_padStart_space|].
  split; [exact Hvisible|].
  rewrite Hvisible. lia.
Qed.

Lemma levelColumn_pads_raw_length_info :
  let raw := colorize Env.colorOpen Env.colorClose "info" "info" in
  levelColumn raw = copies (15 - String.length raw) " " +:+ raw ∧
  String.length (levelColumn raw) = 15 `max` String.length raw ∧
  Ansi.visibleLength (levelColumn raw) = (15 - String.length raw) + String.length "info" ∧
  (String.length "info" < 15 → Ansi.visibleLength (levelColumn raw) = 15 →
     String.length raw = String.length "info").
Proof.
  apply (levelColumn_pads_raw_length Env.colorOpen Env.colorClose "info"); reflexivity.
Defined.

(** The default green of [info]: ten of the fifteen characters of the
    column are escape characters, one is the padding, four show the label. *)
Lemma levelColumn_info_green :
  Ansi.zeroWidth (Env.colorOpen "info") = true ∧
  Ansi.zeroWidth (Env.colorClose "info") = true ∧
  String.length (levelColumn (Env.colorize "info" "info")) = 15 ∧
  Ansi.visibleLength (levelColumn (Env.colorize "info" "info")) = 5.
Proof. repeat split. Qed.

(** ** The constructor *)

Lemma sanitize_invalid (l : option string) : ¬ valid_level l → sanitize l = "info".
Proof.
  unfold valid_level, sanitize. intros Hl. destruct l as [l|]; [|done].
  repeat case_bool_decide; subst; tauto.
Qed.

Lemma sanitize_valid (l : string) : valid_level (Some l) → sanitize (Some l) = l.
Proof.
  unfold valid_level, sanitize.
  intros [Hl|[Hl|[Hl|Hl]]]; injection Hl as ->; reflexivity.
Qed.

(** C3, as the code has it. A [logLevel] that is none of the four names,
    or is absent, is overwritten with [info] in the options, and a logger
    created by this constructor gets that level. A logger handed over as
    [_child] is taken as it is: its level is not touched. *)
Theorem constructor_sanitizes_level (options : Opt.t) :
  ¬ valid_level (Opt.logLevel options) →
  Opt.logLevel (new_ConsoleLogger options).2 = Some "info" ∧
  (Opt._child options = None →
     winston_level (logger (new_ConsoleLogger options).1) = "info") ∧
  (∀ c, Opt._child options = Some c → logger (new_ConsoleLogger options).1 = c).
Proof.
  intros Hl. unfold new_ConsoleLogger. simpl.
  rewrite (sanitize_invalid _ Hl).
  split; [done|]. split.
  - by intros ->.
  - by intros c ->.
Qed.

Lemma constructor_sanitizes_level_verbose :
  let options :=
    {| Opt.name := "svc"; Opt.logLevel := Some "verbose"; Opt.format := Some "console";
       Opt.debugMode := None; Opt._child := None |} in
  Opt.logLevel (new_ConsoleLogger options).2 = Some "info" ∧
  (Opt._child options = None →
     winston_level (logger (new_ConsoleLogger options).1) = "info") ∧
  (∀ c, Opt._child options = Some c → logger (new_ConsoleLogger options).1 = c).
Proof.
  apply constructor_sanitizes_level.
  unfold valid_level. simpl. intros [H|[H|[H|H]]]; discriminate H.
Defined.

(** An invalid level next to a [_child] whose logger was created at level
    [debug]: the options are overwritten, the logger stays at [debug]. So
    does the logger of [createChild], which passes no level at all. *)
Lemma constructor_keeps_child_level :
  let w := child (createLogger "debug" (ConsoleFormat "svc")) "worker" in
  let options :=
    {| Opt.name := "svc"; Opt.logLevel := Some "verbose"; Opt.format := None;
       Opt.debugMode := None; Opt._child := Some w |} in
  Opt.logLevel (new_ConsoleLogger options).2 = Some "info" ∧
  winston_level (logger (new_ConsoleLogger options).1) = "debug" ∧
  winston_level (logger (createChild Env.svc "worker")) = "debug".
Proof. repeat split. Qed.

(** ** The side fields *)

(** C4, as the code has it. [getMetadata] tests the metadata for truth,
    not for presence: it returns nothing when there are no options or the
    metadata is falsy, and wraps every other metadata, whatever is in
    it: any object and any array, empty ones too. *)
Theorem getMetadata_wraps_truthy (h : heap) (options : option loc) :
  (getMetadata h options = None ↔
     options = None ∨
     ∃ o, options = Some o ∧ ToBoolean (Get h (VRef o) "metadata") = false) ∧
  (∀ o X, options = Some o → Get h (VRef o) "metadata" = X → ToBoolean X = true →
     getMetadata h options = Some [("metadata", X)]) ∧
  (∀ o l, options = Some o → Get h (VRef o) "metadata" = VRef l →
     getMetadata h options = Some [("metadata", VRef l)]).
Proof.
  unfold getMetadata. split; [|split].
  - destruct options as [o|]; [|by split; [left|]].
    destruct (ToBoolean (Get h (VRef o) "metadata")) eqn:Hm; cbn [negb]; split.
    + discriminate.
    + intros [|(o' & [= <-] & Hm')]; congruence.
    + intros _. right. by exists o.
    + done.
  - intros o X -> HX HT. by rewrite HX, HT.
  - intros o l -> HX. by rewrite HX.
Qed.

(** Metadata that is present but falsy: the empty string. *)
Lemma getMetadata_empty_string :
  let h := [Object KObject [("metadata", VString "")]] in
  Get h (VRef 0) "metadata" = VString "" ∧ getMetadata h (Some 0) = None.
Proof. split; reflexivity. Qed.

(** The empty object and the empty array of the specification. *)
Example getMetadata_empty_object :
  getMetadata [Object KObject [("metadata", VRef 1)]; Object KObject []] (Some 0)
  = Some [("metadata", VRef 1)].
Proof. reflexivity. Qed.

Example getMetadata_empty_array :
  getMetadata [Object KObject [("metadata", VRef 1)]; Object (KArray []) []] (Some 0)
  = Some [("metadata", VRef 1)].
Proof. reflexivity. Qed.

Lemma traceError_not_debug (callSiteStack : string) (this : ConsoleLogger)
    (options : option loc) (h : heap) :
  debugMode this = false →
  traceError callSiteStack this options h = (None, h).
Proof. intros Hoff. unfold traceError. by rewrite Hoff. Qed.

(** C5. Without debug mode [traceError] returns nothing, whatever the
    options hold: an error or none, metadata or none. *)
Theorem traceError_off (callSiteStack : string) (this : ConsoleLogger)
    (options : option loc) (h : heap) :
  debugMode this = false →
  (traceError callSiteStack this options h).1 = None.
Proof. intros Hoff. by rewrite traceError_not_debug. Qed.

Lemma traceError_off_svc :
  let h := [Object KObject [("metadata", VRef 1); ("error", VRef 2)];
            Object KObject [("code", VNumber 5)];
            Object (KError "boom" "Error: boom") []] in
  (traceError Env.callSiteStack Env.svc (Some 0) h).1 = None.
Proof. apply traceError_off. reflexivity. Defined.

(** ** Child loggers *)

(** C10. A child is constructed without [debugMode], so it has it off
    whatever its parent has: its [traceError] returns nothing, and what its
    [error] gives the sink has neither a stack trace nor metadata. *)
Theorem createChild_debugMode_off (now : string) (colorOpen colorClose : string → string)
    (callSiteStack : string) (format_json : heap → Info → result string)
    (this : ConsoleLogger) (scope : string) :
  let c := createChild this scope in
  debugMode c = false ∧
  ∀ (message : string) (options : option loc) (h : heap),
    traceError callSiteStack c options h = (None, h) ∧
    error now colorOpen colorClose callSiteStack format_json c message options h
    = (winston_log now colorOpen colorClose format_json (logger c) "error" message None h, h) ∧
    stackTrace (record "error" message None) = VUndefined ∧
    metadata (record "error" message None) = VUndefined.
Proof.
  intros c. split; [reflexivity|]. intros message options h.
  split; [reflexivity|]. split; [reflexivity|].
  unfold record. by destruct (has_token message).
Qed.

(** A child of a logger in debug mode, given an error and metadata. *)
Example child_error_line :
  let h := [Object KObject [("metadata", VRef 1); ("error", VRef 2)];
            Object KObject [("code", VNumber 5)];
            Object (KError "boom" "Error: boom") []] in
  Env.error (createChild Env.svc_debug "worker") "boom" (Some 0) h
  = (Ok ("[" +:+ Env.now +:+ "] " +:+ Env.colorize "error" "error"
           +:+ ":             worker | " +:+ Env.colorize "error" "boom"), h).
Proof. reflexivity. Qed.

(** ** The store *)

Section StoreFacts.

Implicit Types (h : heap) (o l : loc) (k : string) (v : value) (obj : object).

Lemma lookup_alloc h obj l : l < length h → (alloc h obj).2 !! l = h !! l.
Proof. intros Hl. unfold alloc. cbn [snd]. by rewrite lookup_app_l. Qed.

Lemma lookup_alloc_new h obj : (alloc h obj).2 !! (alloc h obj).1 = Some obj.
Proof. unfold alloc. cbn [fst snd]. by apply list_lookup_middle. Qed.

Lemma length_alloc h obj : length (alloc h obj).2 = S (length h).
Proof. unfold alloc. cbn [snd]. rewrite length_app. simpl. lia. Qed.

Lemma length_Put h o k v : length (Put h o k v) = length h.
Proof. unfold Put. destruct (h !! o); [apply length_insert | done]. Qed.

Lemma lookup_Put_ne h o k v l : l ≠ o → Put h o k v !! l = h !! l.
Proof.
  intros Hl. unfold Put. destruct (h !! o); [|done].
  by rewrite list_lookup_insert_ne.
Qed.

Lemma lookup_Put_eq h o k v obj :
  h !! o = Some obj →
  Put h o k v !! o = Some (Object (okind obj) (set_prop k v (props obj))).
Proof.
  intros Ho. unfold Put. rewrite Ho.
  apply list_lookup_insert_eq. by eapply lookup_lt_Some.
Qed.

Lemma lookup_set_prop k k' v ps :
  lookup_prop k (set_prop k' v ps)
  = if bool_decide (k = k') then Some v else lookup_prop k ps.
Proof.
  induction ps as [|[k0 v0] ps IH]; simpl.
  - by case_bool_decide.
  - destruct (bool_decide (k' = k0)) eqn:Hk0; simpl.
    + apply bool_decide_eq_true in Hk0 as <-. by case_bool_decide.
    + rewrite IH. apply bool_decide_eq_false in Hk0.
      repeat case_bool_decide; congruence.
Qed.

(** A property written to an object does not show under another name. *)
Lemma Get_Put_ne h o k' v k :
  k ≠ k' → Get (Put h o k' v) (VRef o) k = Get h (VRef o) k.
Proof.
  intros Hk. unfold Get. destruct (h !! o) as [obj|] eqn:Ho.
  - rewrite (lookup_Put_eq _ _ _ _ _ Ho). unfold get_own. simpl.
    by rewrite lookup_set_prop, bool_decide_false.
  - unfold Put. by rewrite Ho, Ho.
Qed.

Lemma Get_Put_other h o k' v l k :
  l ≠ o → Get (Put h o k' v) (VRef l) k = Get h (VRef l) k.
Proof. intros Hl. unfold Get. by rewrite lookup_Put_ne. Qed.

Lemma Get_alloc h obj l k :
  l < length h → Get (alloc h obj).2 (VRef l) k = Get h (VRef l) k.
Proof. intros Hl. unfold Get. by rewrite lookup_alloc. Qed.

End StoreFacts.

(** ** [traceError] and the options of the caller *)

Section TraceErrorFacts.

Variable callSiteStack : string.
Implicit Types (h : heap) (o l : loc) (k : string) (dflt : object).

Lemma traceError_on this options h :
  debugMode this = true →
  traceError callSiteStack this options h =
    let oh := match options with
              | Some o => (o, h)
              | None => alloc h (Object KObject [])
              end in
    let h2 := fill_default oh.1 "error" (Object (KError "" callSiteStack) [])
                (fill_default oh.1 "metadata" (Object KObject []) oh.2) in
    (Some [("stackTrace", Get h2 (Get h2 (VRef oh.1) "error") "stack");
           ("metadata", Get h2 (VRef oh.1) "metadata")], h2).
Proof.
  intros Hon. unfold traceError. rewrite Hon.
  destruct options; reflexivity.
Qed.

Lemma fill_default_truthy o k dflt h :
  ToBoolean (Get h (VRef o) k) = true → fill_default o k dflt h = h.
Proof. intros Ht. unfold fill_default. by rewrite Ht. Qed.

Lemma length_fill_default o k dflt h : length h ≤ length (fill_default o k dflt h).
Proof.
  unfold fill_default. destruct (negb _); [|done].
  unfold alloc. rewrite length_Put, length_app. lia.
Qed.

Lemma lookup_fill_default_ne o k dflt h l :
  l < length h → l ≠ o → fill_default o k dflt h !! l = h !! l.
Proof.
  intros Hl Hne. unfold fill_default. destruct (negb _); [|done].
  unfold alloc. by rewrite lookup_Put_ne, lookup_app_l.
Qed.

Lemma Get_fill_default_ne o k dflt h k' :
  o < length h → k' ≠ k →
  Get (fill_default o k dflt h) (VRef o) k' = Get h (VRef o) k'.
Proof.
  intros Ho Hk. unfold fill_default. destruct (negb _); [|done].
  unfold alloc. rewrite Get_Put_ne by done.
  unfold Get. by rewrite lookup_app_l.
Qed.

(** A falsy field is set to the address of a new object, the default. *)
Lemma fill_default_falsy o k dflt h :
  o < length h → (∀ kd, intrinsic kd k = None) →
  ToBoolean (Get h (VRef o) k) = false →
  Get (fill_default o k dflt h) (VRef o) k = VRef (length h) ∧
  fill_default o k dflt h !! length h = Some dflt.
Proof.
  intros Ho Hk Hf. unfold fill_default. rewrite Hf. cbn [negb]. unfold alloc.
  destruct (lookup_lt_is_Some_2 h o Ho) as [obj Hobj].
  assert ((h ++ [dflt]) !! o = Some obj) as Hobj' by by rewrite lookup_app_l.
  split.
  - unfold Get. rewrite (lookup_Put_eq _ _ _ _ _ Hobj').
    unfold get_own. cbn [okind props]. rewrite Hk, lookup_set_prop.
    by rewrite bool_decide_true.
  - rewrite lookup_Put_ne by lia. by apply list_lookup_middle.
Qed.

End TraceErrorFacts.

(** C2, as the code has it. [traceError] leaves the options of the caller
    as they are when debug mode is off and when they hold both a truthy
    metadata and a truthy error. Otherwise it fills them in place: a falsy
    [metadata] becomes a new empty object, a falsy [error] a new [Error].
    No truthy field, no other property and no other object of the store is
    changed. *)
Theorem traceError_fills_in_place (callSiteStack : string) (this : ConsoleLogger)
    (options : option loc) (h : heap) :
  let h' := (traceError callSiteStack this options h).2 in
  (debugMode this = false → h' = h) ∧
  (∀ o, options = Some o →
     ToBoolean (Get h (VRef o) "metadata") = true →
     ToBoolean (Get h (VRef o) "error") = true → h' = h) ∧
  (∀ l, l < length h → options ≠ Some l → h' !! l = h !! l) ∧
  (∀ o k, options = Some o → o < length h →
     ToBoolean (Get h (VRef o) k) = true ∨ (k ≠ "metadata" ∧ k ≠ "error") →
     Get h' (VRef o) k = Get h (VRef o) k) ∧
  (∀ o, options = Some o → o < length h → debugMode this = true →
     (ToBoolean (Get h (VRef o) "metadata") = false →
        ∃ m, length h ≤ m ∧ Get h' (VRef o) "metadata" = VRef m ∧
             h' !! m = Some (Object KObject [])) ∧
     (ToBoolean (Get h (VRef o) "error") = false →
        ∃ e, length h ≤ e ∧ Get h' (VRef o) "error" = VRef e ∧
             h' !! e = Some (Object (KError "" callSiteStack) []))).
Proof.
  intros h'. subst h'.
  destruct (debugMode this) eqn:Hdebug.
  2: { rewrite traceError_not_debug by done. repeat split; done. }
  rewrite traceError_on by done. cbn zeta. cbn [snd].
  set (M := Object KObject []). set (E := Object (KError "" callSiteStack) []).
  split; [done|]. split; [|split; [|split]].
  - intros o -> Hm He. cbn [fst snd].
    rewrite (fill_default_truthy _ _ _ _ Hm). by apply fill_default_truthy.
  - intros l Hl Hne.
    set (oh := match options with Some o => (o, h) | None => alloc h M end).
    assert (l < length oh.2 ∧ l ≠ oh.1 ∧ oh.2 !! l = h !! l) as (Hl2 & Hne2 & <-).
    { subst oh. destruct options as [o|]; cbn [fst snd].
      - split; [done|]. split; [|done]. intros ->. by apply Hne.
      - unfold alloc. cbn [fst snd]. rewrite length_app, lookup_app_l by done.
        split; [lia|]. split; [lia|done]. }
    rewrite !lookup_fill_default_ne; try done.
    pose proof (length_fill_default oh.1 "metadata" M oh.2). lia.
  - intros o k -> Ho Hk. cbn [fst snd].
    pose proof (length_fill_default o "metadata" M h) as Hlen.
    destruct (decide (k = "metadata")) as [->|Hkm].
    { destruct Hk as [Ht|[? _]]; [|done].
      rewrite (fill_default_truthy _ _ M _ Ht).
      by apply Get_fill_default_ne. }
    destruct (decide (k = "error")) as [->|Hke].
    { destruct Hk as [Ht|[_ ?]]; [|done].
      rewrite fill_default_truthy; [by apply Get_fill_default_ne|].
      by rewrite Get_fill_default_ne. }
    rewrite !Get_fill_default_ne; try done. lia.
  - intros o -> Ho _. cbn [fst snd].
    pose proof (length_fill_default o "metadata" M h) as Hlen.
    split.
    + intros Hm.
      destruct (fill_default_falsy o "metadata" M h Ho) as [Hget Hnew];
        [by intros [] | done |].
      exists (length h). split; [done|].
      rewrite Get_fill_default_ne by (done || lia).
      pose proof (lookup_lt_Some _ _ _ Hnew).
      rewrite lookup_fill_default_ne by lia. done.
    + intros He.
      destruct (fill_default_falsy o "error" E (fill_default o "metadata" M h))
        as [Hget Hnew]; [lia | by intros [] | by rewrite Get_fill_default_ne |].
      eexists. split; [exact Hlen|]. done.
Qed.

(** The caller passes an empty options object to a logger in debug mode:
    afterwards the object has the two fields. *)
Lemma traceError_changes_options :
  let h := [Object KObject []] in
  let h' := (traceError Env.callSiteStack Env.svc_debug (Some 0) h).2 in
  h !! 0 = Some (Object KObject []) ∧
  h' !! 0 = Some (Object KObject [("metadata", VRef 1); ("error", VRef 2)]).
Proof. split; reflexivity. Qed.

(** ** [JSON.stringify] *)

Section JSONFacts.

Import JSON.
Implicit Types (h : heap) (l : loc) (stack : list loc) (v : value) (e : exn).

(** An exception of [mapM] is the exception of one of the elements. *)
Lemma mapM_Throw {A B} (f : A → result B) (xs : list A) e :
  mapM f xs = Throw e → ∃ x, x ∈ xs ∧ f x = Throw e.
Proof.
  induction xs as [|x xs IH]; [discriminate|].
  change (mapM f (x :: xs)) with (y ← f x; k ← mapM f xs; mret (y :: k)).
  destruct (f x) as [y|e'] eqn:Hx; simpl.
  - destruct (mapM f xs) as [k|e'] eqn:Hxs; simpl; [discriminate|].
    intros [= ->]. destruct (IH eq_refl) as (x' & Hin & Hx').
    exists x'. split; [by right | done].
  - intros [= ->]. exists x. split; [by left | done].
Qed.

Lemma fmap_Throw {A B} (g : A → B) (r : result A) e :
  g <$> r = Throw e → r = Throw e.
Proof. destruct r; simpl; [discriminate | congruence]. Qed.

(** Distinct addresses of a store are no more than the store has. *)
Lemma distinct_addresses h stack :
  NoDup stack → (∀ l, l ∈ stack → l < length h) → length stack ≤ length h.
Proof.
  intros Hnd Hin. trans (length (seq 0 (length h))); [|by rewrite length_seq].
  apply submseteq_length, NoDup_submseteq; [done|].
  intros l Hl. apply elem_of_seq. specialize (Hin l Hl). lia.
Qed.

(** The nesting never goes deeper than the fuel that is left, when the
    fuel left and the objects entered together exceed the store. *)
Lemma SerializeJSONProperty_fuel fuel h stack v :
  NoDup stack → (∀ l, l ∈ stack → l < length h) →
  length h < fuel + length stack →
  SerializeJSONProperty fuel h stack v ≠ Throw too_deep.
Proof.
  revert stack v. induction fuel as [|fuel IH]; intros stack v Hnd Hin Hfuel.
  - pose proof (distinct_addresses h stack Hnd Hin). lia.
  - destruct v as [| |b|n|s|l]; try discriminate.
    cbn [SerializeJSONProperty].
    destruct (h !! l) as [o|] eqn:Ho; [|discriminate].
    case_bool_decide as Hl; [discriminate|].
    assert (∀ v', SerializeJSONProperty fuel h (l :: stack) v' ≠ Throw too_deep)
      as Hinner.
    { intros v'. apply IH.
      - by constructor.
      - intros l' [->|Hl']%elem_of_cons; [by eapply lookup_lt_Some | by apply Hin].
      - simpl. lia. }
    destruct (okind o) as [|elems|message stk].
    all: match goal with
         | |- context [mapM ?f ?xs] => destruct (mapM f xs) as [parts|e] eqn:Hparts
         end; simpl; try discriminate.
    all: intros [= ->]; apply mapM_Throw in Hparts as (x & _ & Hx).
    all: apply fmap_Throw in Hx; by apply Hinner in Hx.
Qed.

Lemma SerializeJSONProperty_exn fuel h stack v e :
  SerializeJSONProperty fuel h stack v = Throw e → e = circular ∨ e = too_deep.
Proof.
  revert stack v. induction fuel as [|fuel IH]; intros stack v.
  - destruct v as [| |b|n|s|l]; try discriminate. simpl.
    destruct (h !! l); [|discriminate].
    case_bool_decide; intros [= <-]; auto.
  - destruct v as [| |b|n|s|l]; try discriminate.
    cbn [SerializeJSONProperty].
    destruct (h !! l) as [o|] eqn:Ho; [|discriminate].
    case_bool_decide as Hl; [intros [= <-]; auto|].
    destruct (okind o) as [|elems|message stk].
    all: match goal with
         | |- context [mapM ?f ?xs] => destruct (mapM f xs) as [parts|e'] eqn:Hparts
         end; simpl; try discriminate.
    all: intros [= ->]; apply mapM_Throw in Hparts as (x & _ & Hx).
    all: apply fmap_Throw in Hx; by apply IH in Hx.
Qed.

(** [JSON.stringify] never runs out of fuel: its only exception is the
    one of a circular structure. *)
Lemma stringify_fuel h v e : stringify h v = Throw e → e = circular.
Proof.
  intros Hv. unfold stringify in Hv.
  destruct (SerializeJSONProperty_exn _ _ _ _ _ Hv) as [->| ->]; [done|].
  exfalso. revert Hv. apply SerializeJSONProperty_fuel.
  - constructor.
  - by intros l ?%elem_of_nil.
  - simpl. lia.
Qed.

(** An object of the store has a JSON text unless that is an exception. *)
Lemma stringify_object h l o r :
  h !! l = Some o → stringify h (VRef l) = Ok r → ∃ j, r = Some j.
Proof.
  intros Ho. unfold stringify. cbn [SerializeJSONProperty]. rewrite Ho.
  rewrite bool_decide_false by by intros ?%elem_of_nil.
  destruct (okind o) as [|elems|message stk].
  all: match goal with
       | |- context [mapM ?f ?xs] => destruct (mapM f xs) as [parts|e'] eqn:Hparts
       end; simpl; try discriminate.
  all: intros [= <-]; eauto.
Qed.

End JSONFacts.

(** ** The metadata suffix *)

Lemma metadataSuffix_nonempty (h : heap) (info : Info) (m : string) :
  stringifyMetadata h info = Ok (" " +:+ m) →
  metadataSuffix h info = Ok (LF +:+ "  > [metadata] " +:+ m).
Proof. intros Hm. unfold metadataSuffix. rewrite Hm. reflexivity. Qed.

(** C7. The suffix is empty for metadata that is absent or is an empty
    object or array; for a string it is the marker and the string; for any
    other object or array it is the marker and the JSON text of it. *)
Theorem metadataSuffix_cases (h : heap) (info : Info) :
  (metadata info = VUndefined ∨ metadata info = VNull → metadataSuffix h info = Ok "") ∧
  (∀ l o, metadata info = VRef l → h !! l = Some o → empty o = true →
     metadataSuffix h info = Ok "") ∧
  (∀ m, metadata info = VString m →
     metadataSuffix h info = Ok (LF +:+ "  > [metadata] " +:+ m)) ∧
  (∀ l o j, metadata info = VRef l → h !! l = Some o → empty o = false →
     JSON.stringify h (VRef l) = Ok (Some j) →
     metadataSuffix h info = Ok (LF +:+ "  > [metadata] " +:+ j)).
Proof.
  split; [|split; [|split]].
  - unfold metadataSuffix, stringifyMetadata. by intros [-> | ->].
  - intros l o Hm Ho He. unfold metadataSuffix, stringifyMetadata.
    rewrite Hm, Ho. unfold empty in He.
    destruct (okind o) as [|elems|message stk];
      apply bool_decide_eq_true in He; by rewrite He.
  - intros m Hm. apply metadataSuffix_nonempty.
    unfold stringifyMetadata. by rewrite Hm.
  - intros l o j Hm Ho He Hj. apply metadataSuffix_nonempty.
    unfold stringifyMetadata. rewrite Hm, Ho, Hj. unfold empty in He.
    destruct (okind o) as [|elems|message stk];
      apply bool_decide_eq_false in He.
    + destruct (Object_keys o); done.
    + destruct elems; done.
    + destruct (Object_keys o); done.
Qed.

Lemma metadataSuffix_samples :
  metadataSuffix sample_store (sample (VRef 0))
    = Ok (LF +:+ "  > [metadata] {" +:+ String dquote "a" +:+ String dquote ":1}") ∧
  metadataSuffix sample_store (sample (VString "hello"))
    = Ok (LF +:+ "  > [metadata] hello") ∧
  metadataSuffix sample_store (sample (VRef 1)) = Ok "" ∧
  metadataSuffix sample_store (sample (VRef 2)) = Ok "" ∧
  metadataSuffix sample_store (sample VUndefined) = Ok "".
Proof.
  destruct (metadataSuffix_cases sample_store (sample (VRef 0))) as (_ & _ & _ & H0).
  destruct (metadataSuffix_cases sample_store (sample (VString "hello"))) as (_ & _ & Hs & _).
  destruct (metadataSuffix_cases sample_store (sample (VRef 1))) as (_ & H1 & _ & _).
  destruct (metadataSuffix_cases sample_store (sample (VRef 2))) as (_ & H2 & _ & _).
  destruct (metadataSuffix_cases sample_store (sample VUndefined)) as (Hu & _ & _ & _).
  split; [|split; [|split; [|split]]].
  - exact (H0 0 _ _ eq_refl eq_refl eq_refl eq_refl).
  - exact (Hs _ eq_refl).
  - exact (H1 1 _ eq_refl eq_refl eq_refl).
  - exact (H2 2 _ eq_refl eq_refl eq_refl).
  - exact (Hu (or_introl eq_refl)).
Defined.

(** ** The sink *)

Section SinkFacts.

Variable now : string.
Variables colorOpen colorClose : string → string.
Variable format_json : heap → Info → result string.

Implicit Types (w : winston_Logger) (h : heap) (info : Info) (s : string).

Lemma app_empty_r s : s +:+ "" = s.
Proof. induction s as [|c s IH]; [done|]. by rewrite app_String, IH. Qed.

Lemma append_assoc (a b c : string) : (a +:+ b) +:+ c = a +:+ b +:+ c.
Proof. induction a as [|x a IH]; [done|]. by rewrite !app_String, IH. Qed.

Lemma write_tagged w h info :
  write now colorOpen colorClose format_json w h info
  = transform now colorOpen colorClose format_json (winston_format w) h (tagged w info).
Proof. revert info. induction w as [lvl fmt|parent IH s]; intros info; simpl; auto. Qed.

(** A logger with the console format gives the callback the formatted
    record. *)
Lemma write_console w n h info :
  winston_format w = ConsoleFormat n →
  write now colorOpen colorClose format_json w h info
  = printf_callback n h (formatted now colorOpen colorClose w info).
Proof. intros Hw. by rewrite write_tagged, Hw. Qed.

Lemma tag_scoped s info : scope info ≠ VUndefined → tag s info = info.
Proof.
  destruct info as [? ? ? sc ? ?]. simpl. intros Hsc.
  unfold tag. simpl. by destruct sc.
Qed.

Lemma tagged_scoped w info : scope info ≠ VUndefined → tagged w info = info.
Proof.
  revert info. induction w as [lvl fmt|parent IH s]; intros info Hsc; simpl; [done|].
  rewrite tag_scoped by done. by apply IH.
Qed.

Lemma scope_tag s info : scope info = VUndefined → scope (tag s info) = VString s.
Proof. intros Hsc. unfold tag. cbn [scope]. by rewrite Hsc. Qed.

(** What the tagging leaves as it is. *)
Lemma fields_tagged w info :
  level (tagged w info) = level info ∧ message (tagged w info) = message info ∧
  timestamp (tagged w info) = timestamp info ∧
  metadata (tagged w info) = metadata info ∧
  stackTrace (tagged w info) = stackTrace info.
Proof.
  revert info. induction w as [l f|parent IH s]; intros info; simpl; [done|].
  destruct (IH (tag s info)) as (-> & -> & -> & -> & ->). done.
Qed.

(** A record without a scope reaches the format with the scope of the
    innermost child, or without one when no child is on the way. *)
Lemma scope_tagged w info :
  scope info = VUndefined →
  scope (tagged w info) = VUndefined ∨ ∃ s, scope (tagged w info) = VString s.
Proof.
  intros Hsc. destruct w as [lvl fmt|parent s]; simpl; [by left|].
  right. exists s. rewrite tagged_scoped by by rewrite scope_tag.
  by apply scope_tag.
Qed.

(** The fields of the formatted record that the callback looks at besides
    the level and the message. *)
Lemma fields_formatted w info :
  scope (formatted now colorOpen colorClose w info) = scope (tagged w info) ∧
  metadata (formatted now colorOpen colorClose w info) = metadata info ∧
  stackTrace (formatted now colorOpen colorClose w info) = stackTrace info ∧
  level (formatted now colorOpen colorClose w info)
    = paint colorOpen colorClose (level info) (level info) ∧
  message (formatted now colorOpen colorClose w info)
    = paint colorOpen colorClose (level info) (message info) ∧
  (timestamp info = VUndefined →
     timestamp (formatted now colorOpen colorClose w info) = VString now).
Proof.
  destruct (fields_tagged w info) as (Hl & Hm & Ht & Hd & Hs).
  unfold formatted. cbn [format_colorize_all format_timestamp scope metadata stackTrace
    level message timestamp].
  rewrite Hl, Hm, Ht, Hd, Hs. repeat split. by intros ->.
Qed.

Lemma metadataSuffix_ext h info info' :
  metadata info = metadata info' → metadataSuffix h info = metadataSuffix h info'.
Proof. intros Hm. unfold metadataSuffix, stringifyMetadata. by rewrite Hm. Qed.

Lemma stackTraceSuffix_ext h info info' :
  stackTrace info = stackTrace info' → stackTraceSuffix h info = stackTraceSuffix h info'.
Proof. intros Hs. unfold stackTraceSuffix. by rewrite Hs. Qed.

(** The scope column of a record without a scope, or with the empty one,
    is that of the name; the one of a scope that is a string and not empty
    is that of the scope. *)
Lemma scopeField_name n info :
  scope info = VUndefined ∨ scope info = VString "" →
  scopeField n info = Ok (scopeColumn n).
Proof. unfold scopeField. by intros [-> | ->]. Qed.

Lemma scopeField_scope n info s :
  scope info = VString s → s ≠ "" → scopeField n info = Ok (scopeColumn s).
Proof.
  unfold scopeField. intros -> Hs. cbn [ToBoolean].
  by rewrite bool_decide_false.
Qed.

Lemma scopeField_string n info :
  (scope info = VUndefined ∨ ∃ s, scope info = VString s) →
  ∃ col, scopeField n info = Ok col.
Proof.
  intros [Hsc|[s Hsc]].
  - rewrite scopeField_name by auto. eauto.
  - destruct (decide (s = "")) as [->|Hs].
    + rewrite scopeField_name by auto. eauto.
    + rewrite (scopeField_scope _ _ s) by done. eauto.
Qed.

(** [stringifyMetadata] fails on failing metadata, and on nothing else. *)
Lemma stringifyMetadata_failing h info e :
  stringifyMetadata h info = Throw e ↔ failing h (metadata info) e.
Proof.
  unfold failing. split.
  - unfold stringifyMetadata.
    destruct (metadata info) as [| |b|z|m|l]; try discriminate.
    destruct (h !! l) as [o|] eqn:Ho; [|discriminate].
    intros Hs. exists l, o. unfold empty.
    destruct (okind o) as [|elems|msg stk].
    + destruct (Object_keys o) as [|k ks]; [discriminate|].
      simpl in Hs. destruct (JSON.stringify h (VRef l)); [discriminate|].
      simpl in Hs. injection Hs as ->. done.
    + destruct elems as [|x elems]; [discriminate|].
      simpl in Hs. destruct (JSON.stringify h (VRef l)); [discriminate|].
      simpl in Hs. injection Hs as ->. done.
    + destruct (Object_keys o) as [|k ks]; [discriminate|].
      simpl in Hs. destruct (JSON.stringify h (VRef l)); [discriminate|].
      simpl in Hs. injection Hs as ->. done.
  - intros (l & o & Hm & Ho & He & Hj). unfold stringifyMetadata.
    rewrite Hm, Ho, Hj. unfold empty in He.
    destruct (okind o) as [|elems|msg stk]; apply bool_decide_eq_false in He.
    + destruct (Object_keys o); done.
    + destruct elems; done.
    + destruct (Object_keys o); done.
Qed.

Lemma metadataSuffix_Throw h info e :
  metadataSuffix h info = Throw e ↔ stringifyMetadata h info = Throw e.
Proof.
  unfold metadataSuffix. destruct (stringifyMetadata h info); simpl; [|done].
  split; discriminate.
Qed.

(** With a scope that is a string or absent, the callback fails when the
    metadata fails, and only then. *)
Lemma printf_callback_Throw n h info e :
  (scope info = VUndefined ∨ ∃ s, scope info = VString s) →
  printf_callback n h info = Throw e ↔ failing h (metadata info) e.
Proof.
  intros Hsc. rewrite <- stringifyMetadata_failing, <- metadataSuffix_Throw.
  unfold printf_callback.
  destruct (scopeField_string n info Hsc) as [col ->].
  destruct (metadataSuffix h info); simpl; [|done].
  split; discriminate.
Qed.

(** The line of the callback, for a scope column that is there. *)
Lemma printf_callback_line n h info col :
  scopeField n info = Ok col →
  printf_callback n h info =
    suffix ← metadataSuffix h info;
    Ok ("[" +:+ ToString h (timestamp info) +:+ "] " +:+ levelColumn (level info)
          +:+ ": " +:+ col +:+ " | "
          +:+ message info +:+ suffix +:+ stackTraceSuffix h info).
Proof.
  intros Hcol. unfold printf_callback. rewrite Hcol.
  by destruct (metadataSuffix h info).
Qed.

End SinkFacts.

(** ** The logging calls *)

Section Logging.

Variable now : string.
Variables colorOpen colorClose : string → string.
Variable callSiteStack : string.
Variable format_json : heap → Info → result string.

Implicit Types (this : ConsoleLogger) (msg : string) (opts : option loc)
  (h : heap) (n s : string) (meta : option literal).

Lemma getMetadata_of_this_class h opts : of_this_class (getMetadata h opts).
Proof.
  unfold of_this_class, getMetadata. destruct opts as [o|]; [|by left].
  destruct (negb _); [by left | right; left; eauto].
Qed.

Lemma traceError_of_this_class this opts h :
  of_this_class (traceError callSiteStack this opts h).1.
Proof.
  unfold of_this_class. destruct (debugMode this) eqn:Hon.
  - rewrite traceError_on by done. right. right. cbn zeta. cbn [fst]. eauto.
  - rewrite traceError_not_debug by done. by left.
Qed.

(** The record of side fields of this class. *)
Lemma record_fields lvl msg meta :
  of_this_class meta →
  level (record lvl msg meta) = lvl ∧ message (record lvl msg meta) = msg ∧
  timestamp (record lvl msg meta) = VUndefined ∧
  scope (record lvl msg meta) = VUndefined ∧
  metadata (record lvl msg meta)
    = (if has_token msg then VUndefined else side_metadata meta).
Proof.
  unfold record.
  intros [->|[[m ->]|(a & b & ->)]]; by destruct (has_token msg).
Qed.

Lemma stackTrace_getMetadata lvl msg h opts :
  stackTrace (record lvl msg (getMetadata h opts)) = VUndefined.
Proof.
  unfold record, getMetadata. destruct (has_token msg); [done|].
  destruct opts as [o|]; [|done]. by destruct (negb _).
Qed.

Lemma failing_ref h m e : failing h m e → ToBoolean m = true.
Proof. by intros (l & o & -> & _). Qed.

(** The metadata [getMetadata] hands over fails when that of the options
    does. *)
Lemma failing_getMetadata h opts e :
  failing h (side_metadata (getMetadata h opts)) e
  ↔ failing h (Get h (from_option VRef VUndefined opts) "metadata") e.
Proof.
  unfold getMetadata. destruct opts as [o|]; [|done]. cbn [from_option].
  destruct (ToBoolean (Get h (VRef o) "metadata")) eqn:Hm; cbn [negb side_metadata];
    [done|].
  split; intros Hf%failing_ref; [discriminate | congruence].
Qed.

(** A call of the sink with the console format fails when the metadata of
    the record fails, and only then. *)
Lemma winston_log_Throw w n lvl msg meta h e :
  winston_format w = ConsoleFormat n → of_this_class meta →
  winston_log now colorOpen colorClose format_json w lvl msg meta h = Throw e
  ↔ has_token msg = false ∧ failing h (side_metadata meta) e.
Proof.
  intros Hw Hmeta. unfold winston_log. rewrite (write_console _ _ _ _ _ n) by done.
  destruct (record_fields lvl msg meta Hmeta) as (_ & _ & _ & Hsc & Hm).
  destruct (fields_formatted now colorOpen colorClose w (record lvl msg meta))
    as (Hsc' & Hm' & _).
  rewrite printf_callback_Throw by (rewrite Hsc'; by apply scope_tagged).
  rewrite Hm', Hm. destruct (has_token msg).
  - split; [by intros ?%failing_ref | by intros []].
  - split; [done | by intros []].
Qed.

(** The line a call of the sink with the console format writes: the time,
    the level, the scope column, and what the callback puts after it. *)
Lemma winston_log_shown w n lvl msg meta h col :
  winston_format w = ConsoleFormat n → of_this_class meta →
  scopeField n (tagged w (record lvl msg meta)) = Ok col →
  winston_log now colorOpen colorClose format_json w lvl msg meta h =
    suffix ← metadataSuffix h (record lvl msg meta);
    Ok ("[" +:+ now +:+ "] " +:+ levelColumn (paint colorOpen colorClose lvl lvl)
          +:+ ": " +:+ col +:+ " | " +:+ paint colorOpen colorClose lvl msg
          +:+ suffix +:+ stackTraceSuffix h (record lvl msg meta)).
Proof.
  intros Hw Hmeta Hcol. unfold winston_log. rewrite (write_console _ _ _ _ _ n) by done.
  destruct (record_fields lvl msg meta Hmeta) as (Hl & Hmsg & Hts & _ & _).
  destruct (fields_formatted now colorOpen colorClose w (record lvl msg meta))
    as (Hsc' & Hm' & Hst' & Hl' & Hmsg' & Hts').
  rewrite (printf_callback_line _ _ _ col).
  2: { unfold scopeField in *. by rewrite Hsc'. }
  rewrite (metadataSuffix_ext h _ (record lvl msg meta)) by done.
  rewrite (stackTraceSuffix_ext h _ (record lvl msg meta)) by done.
  rewrite Hl', Hmsg', Hts' by done. by rewrite Hl, Hmsg.
Qed.

(** The same, leaving open what follows the scope column. *)
Lemma winston_log_column w n lvl msg meta h col :
  winston_format w = ConsoleFormat n → of_this_class meta →
  scopeField n (tagged w (record lvl msg meta)) = Ok col →
  ∃ rest : result string,
    winston_log now colorOpen colorClose format_json w lvl msg meta h =
      after ← rest;
      Ok ("[" +:+ now +:+ "] " +:+ levelColumn (paint colorOpen colorClose lvl lvl)
            +:+ ": " +:+ col +:+ " | " +:+ after).
Proof.
  intros Hw Hmeta Hcol. rewrite (winston_log_shown _ n _ _ _ _ col) by done.
  exists (suffix ← metadataSuffix h (record lvl msg meta);
          Ok (paint colorOpen colorClose lvl msg
                +:+ suffix +:+ stackTraceSuffix h (record lvl msg meta))).
  by destruct (metadataSuffix h (record lvl msg meta)).
Qed.

(** C8, as the code has it. With the console format a logging call raises
    exactly when the sink attaches the side fields, the message holding no
    printf token, and their metadata is an object with keys or an array
    with elements on which [JSON.stringify] fails: nothing catches that
    exception. For [debug], [info] and [warn] the metadata is that of the
    options; for [error] it is the one [traceError] returns, so without
    debug mode [error] returns. In every other case the call returns the
    line, and metadata that is a number or a boolean is left out of it. *)
Theorem logging_raises_on_failing_metadata this msg opts h n :
  winston_format (logger this) = ConsoleFormat n →
  let m := Get h (from_option VRef VUndefined opts) "metadata" in
  let traced := traceError callSiteStack this opts h in
  let raises (r : result string) (h' : heap) (m' : value) :=
    (∀ e, r = Throw e ↔ has_token msg = false ∧ failing h' m' e) ∧
    ((has_token msg = true ∨ ∀ e, ¬ failing h' m' e) → ∃ line, r = Ok line) in
  raises (debug now colorOpen colorClose format_json this msg opts h) h m ∧
  raises (info now colorOpen colorClose format_json this msg opts h) h m ∧
  raises (warn now colorOpen colorClose format_json this msg opts h) h m ∧
  raises (error now colorOpen colorClose callSiteStack format_json this msg opts h).1
    traced.2 (side_metadata traced.1) ∧
  (debugMode this = false →
     ∃ line, (error now colorOpen colorClose callSiteStack format_json
                this msg opts h).1 = Ok line) ∧
  (∀ info, (∃ b, metadata info = VBool b) ∨ (∃ z, metadata info = VNumber z) →
     metadataSuffix h info = Ok "").
Proof.
  intros Hw m traced raises.
  assert (∀ r h' m', (∀ e, r = Throw e ↔ has_token msg = false ∧ failing h' m' e) →
                     raises r h' m') as Hraises.
  { intros r h' m' Hr. split; [exact Hr|]. intros Hnot.
    destruct r as [line|e]; [eauto|].
    destruct (Hr e) as [[Htok Hf] _]; [done|].
    destruct Hnot as [Htok'|Hnot]; [congruence | by destruct (Hnot e)]. }
  assert (∀ lvl e,
            winston_log now colorOpen colorClose format_json (logger this)
              lvl msg (getMetadata h opts) h = Throw e
            ↔ has_token msg = false ∧ failing h m e) as Hlog.
  { intros lvl e.
    rewrite (winston_log_Throw _ n) by (done || apply getMetadata_of_this_class).
    by rewrite failing_getMetadata. }
  assert (∀ e, (error now colorOpen colorClose callSiteStack format_json
                  this msg opts h).1 = Throw e
               ↔ has_token msg = false ∧ failing traced.2 (side_metadata traced.1) e)
    as Herror.
  { intros e. unfold error. fold traced.
    pose proof (traceError_of_this_class this opts h) as Hmeta. fold traced in Hmeta.
    destruct traced as [meta h']. cbn [fst snd] in *.
    by apply (winston_log_Throw _ n). }
  split; [apply Hraises; intros e; apply Hlog|].
  split; [apply Hraises; intros e; apply Hlog|].
  split; [apply Hraises; intros e; apply Hlog|].
  split; [apply Hraises, Herror|]. split.
  - intros Hoff.
    assert (∀ e, (error now colorOpen colorClose callSiteStack format_json
                    this msg opts h).1 ≠ Throw e) as Hreturns.
    { intros e [_ Hf%failing_ref]%Herror.
      subst traced. by rewrite traceError_not_debug in Hf. }
    destruct (error now colorOpen colorClose callSiteStack format_json this msg opts h).1
      as [line|e]; [eauto | by destruct (Hreturns e)].
  - intros info [[b Hb]|[z Hz]]; unfold metadataSuffix, stringifyMetadata.
    + by rewrite Hb.
    + by rewrite Hz.
Qed.

(** C9, as the code has it. A child writes its scope, padded or cut, in
    the scope column of every record, right after the time and the level,
    whatever the name of the logger is; a child made for the empty scope
    writes there the name the console format was made with. *)
Theorem child_renders_its_scope this s msg opts h n :
  winston_format (logger this) = ConsoleFormat n →
  let c := createChild this s in
  let col := scopeColumn (if bool_decide (s = "") then n else s) in
  let shown lvl (r : result string) :=
    ∃ rest : result string,
      r = (after ← rest;
           Ok ("[" +:+ now +:+ "] " +:+ levelColumn (paint colorOpen colorClose lvl lvl)
                 +:+ ": " +:+ col +:+ " | " +:+ after)) in
  shown "debug" (debug now colorOpen colorClose format_json c msg opts h) ∧
  shown "info" (info now colorOpen colorClose format_json c msg opts h) ∧
  shown "warn" (warn now colorOpen colorClose format_json c msg opts h) ∧
  shown "error"
    (error now colorOpen colorClose callSiteStack format_json c msg opts h).1.
Proof.
  intros Hw c col shown.
  assert (∀ lvl meta h', of_this_class meta →
            shown lvl (winston_log now colorOpen colorClose format_json
                         (logger c) lvl msg meta h')) as Hlog.
  { intros lvl meta h' Hmeta. apply (winston_log_column _ n); [done | done |].
    destruct (record_fields lvl msg meta Hmeta) as (_ & _ & _ & Hsc & _).
    subst c col. simpl.
    rewrite tagged_scoped by by rewrite scope_tag.
    case_bool_decide as Hs.
    - subst s. apply scopeField_name. right. by apply scope_tag.
    - apply (scopeField_scope _ _ s); [by apply scope_tag | done]. }
  unfold debug, info, warn, error.
  split; [apply Hlog, getMetadata_of_this_class|].
  split; [apply Hlog, getMetadata_of_this_class|].
  split; [apply Hlog, getMetadata_of_this_class|].
  pose proof (traceError_of_this_class c opts h) as Hmeta.
  destruct (traceError callSiteStack c opts h) as [meta h']. cbn [fst] in *.
  by apply Hlog.
Qed.

End Logging.

(** A child for the scope [worker] of the logger named [svc], as the
    specification has it, on a record with metadata. *)
Lemma child_renders_worker :
  let h := [Object KObject [("metadata", VRef 1)]; Object KObject [("code", VNumber 5)]] in
  ∃ rest : result string,
    Env.info (createChild Env.svc "worker") "tick" (Some 0) h =
      after ← rest;
      Ok ("[" +:+ Env.now +:+ "] " +:+ levelColumn (Env.colorize "info" "info")
            +:+ ": " +:+ scopeColumn "worker" +:+ " | " +:+ after).
Proof.
  intros h.
  destruct (child_renders_its_scope Env.now Env.colorOpen Env.colorClose
              Env.callSiteStack Env.format_json Env.svc "worker" "tick" (Some 0) h "svc")
    as (_ & Hinfo & _); [reflexivity|].
  exact Hinfo.
Defined.

(** A child for the empty scope: the column shows the name of the logger. *)
Lemma child_of_empty_scope :
  Env.info (createChild Env.svc "") "tick" None []
  = Ok ("[" +:+ Env.now +:+ "] " +:+ levelColumn (Env.colorize "info" "info")
          +:+ ": " +:+ scopeColumn "svc" +:+ " | " +:+ Env.colorize "info" "tick") ∧
  scopeColumn "svc" ≠ scopeColumn "".
Proof. split; [reflexivity | discriminate]. Qed.

(** Metadata that holds itself: the call of [info] ends in the exception
    of [JSON.stringify]. *)
Lemma info_raises_on_circular_metadata :
  let h := [Object KObject [("metadata", VRef 1)]; Object KObject [("self", VRef 1)]] in
  Env.info Env.svc "tick" (Some 0) h = Throw JSON.circular.
Proof. reflexivity. Qed.

Lemma logging_returns_svc :
  let h := [Object KObject [("metadata", VRef 1)]; Object KObject [("code", VNumber 5)]] in
  ∃ line, Env.info Env.svc "tick" (Some 0) h = Ok line.
Proof.
  intros h.
  destruct (logging_raises_on_failing_metadata Env.now Env.colorOpen Env.colorClose
              Env.callSiteStack Env.format_json Env.svc "tick" (Some 0) h "svc")
    as (_ & [_ Hinfo] & _); [reflexivity|].
  apply Hinfo. right. intros e (l & o & [= <-] & _ & _ & Hj). discriminate Hj.
Defined.

(** The same metadata under a message with a printf token: the sink does
    not attach it, and the call returns. *)
Example token_message_returns :
  let h := [Object KObject [("metadata", VRef 1)]; Object KObject [("self", VRef 1)]] in
  Env.info Env.svc "rate %d" (Some 0) h
  = Ok ("[" +:+ Env.now +:+ "] " +:+ levelColumn (Env.colorize "info" "info")
          +:+ ": " +:+ scopeColumn "svc" +:+ " | " +:+ Env.colorize "info" "rate %d").
Proof. reflexivity. Qed.
(** * Further properties *)

(** ** The constructor and its children *)

Lemma sanitize_is_valid (l : option string) : valid_level (Some (sanitize l)).
Proof.
  unfold valid_level, sanitize. destruct l as [l|]; [|auto].
  repeat case_bool_decide; subst; auto.
Qed.

(** X1. A [logLevel] that is one of the four names goes through the
    constructor as it is: the options keep it, and the logger created
    when no [_child] is given has it. *)
Theorem constructor_keeps_valid_level (options : Opt.t) (l : string) :
  Opt.logLevel options = Some l →
  valid_level (Some l) →
  Opt.logLevel (new_ConsoleLogger options).2 = Some l ∧
  (Opt._child options = None →
     winston_level (logger (new_ConsoleLogger options).1) = l).
Proof.
  intros Hl Hvalid. unfold new_ConsoleLogger. simpl.
  rewrite Hl, (sanitize_valid _ Hvalid). split; [done|]. by intros ->.
Qed.

Lemma constructor_keeps_valid_level_warn :
  let options :=
    {| Opt.name := "svc"; Opt.logLevel := Some "warn"; Opt.format := None;
       Opt.debugMode := None; Opt._child := None |} in
  Opt.logLevel (new_ConsoleLogger options).2 = Some "warn" ∧
  (Opt._child options = None →
     winston_level (logger (new_ConsoleLogger options).1) = "warn").
Proof.
  apply constructor_keeps_valid_level; [reflexivity|].
  unfold valid_level. auto.
Defined.

(** X2. Whatever [logLevel] the options hold, after the constructor they
    hold one of the four names, and so does the logger it creates. *)
Theorem constructor_level_is_valid (options : Opt.t) :
  valid_level (Opt.logLevel (new_ConsoleLogger options).2) ∧
  (Opt._child options = None →
     valid_level (Some (winston_level (logger (new_ConsoleLogger options).1)))).
Proof.
  unfold new_ConsoleLogger. simpl. split; [apply sanitize_is_valid|].
  intros ->. apply sanitize_is_valid.
Qed.

(** X3. Debug mode is on for the boolean [true] only, and the console
    format is chosen for the format [console] only: every other format, or
    none, gives the JSON format. The console format reads the name of the
    logger it was made for. *)
Theorem constructor_switches (options : Opt.t) :
  (debugMode (new_ConsoleLogger options).1 = true ↔ Opt.debugMode options = Some true) ∧
  (Opt._child options = None →
     (Opt.format options = Some "console" →
        winston_format (logger (new_ConsoleLogger options).1)
        = ConsoleFormat (Opt.name options)) ∧
     (Opt.format options ≠ Some "console" →
        winston_format (logger (new_ConsoleLogger options).1) = JsonFormat)).
Proof.
  unfold new_ConsoleLogger. simpl. split.
  - apply bool_decide_eq_true.
  - intros ->. simpl. split; intros Hfmt.
    + by rewrite bool_decide_true.
    + by rewrite bool_decide_false.
Qed.

(** X4. A logger derived by any number of [createChild] calls has the name,
    the level and the format of the logger it descends from, and has debug
    mode off. *)
Theorem descendants_share_sink (this : ConsoleLogger) (scopes : list string) :
  let c := foldl createChild this scopes in
  name c = name this ∧
  winston_level (logger c) = winston_level (logger this) ∧
  winston_format (logger c) = winston_format (logger this) ∧
  (scopes ≠ [] → debugMode c = false).
Proof.
  induction scopes as [|s scopes IH] using rev_ind; [done|].
  rewrite foldl_snoc. cbn zeta in *.
  destruct IH as (Hname & Hlevel & Hformat & _).
  unfold createChild at 1 2 3 4. simpl. done.
Qed.

(** ** The metadata suffix, further *)

(** X5. [stringifyMetadata] fails in one case only: the metadata is an
    object with keys, or an array with elements, on which [JSON.stringify]
    fails; the exception is the one of [JSON.stringify]. Every other
    metadata gives a string. *)
Theorem stringifyMetadata_throws (h : heap) (info : Info) (e : exn) :
  stringifyMetadata h info = Throw e ↔
  ∃ l o, metadata info = VRef l ∧ h !! l = Some o ∧ empty o = false ∧
         JSON.stringify h (VRef l) = Throw e.
Proof. apply stringifyMetadata_failing. Qed.

(** X6. The metadata suffix is either empty or a line of its own that
    starts with the marker: nothing else is ever appended to the message. *)
Theorem metadataSuffix_shape (h : heap) (info : Info) (suffix : string) :
  metadataSuffix h info = Ok suffix →
  suffix = "" ∨ ∃ text, suffix = LF +:+ "  > [metadata] " +:+ text.
Proof.
  unfold metadataSuffix.
  assert (∀ m, stringifyMetadata h info = Ok m → m = "" ∨ ∃ text, m = " " +:+ text)
    as Hshape.
  { unfold stringifyMetadata. intros m.
    destruct (metadata info) as [| |b|z|s|l]; try (intros [= <-]; auto; fail).
    - intros [= <-]. eauto.
    - destruct (h !! l) as [o|]; [|intros [= <-]; auto].
      destruct (okind o) as [|elems|msg stk].
      all: match goal with |- context [if ?c then _ else _] => destruct c end;
        try (intros [= <-]; auto; fail).
      all: destruct (JSON.stringify h (VRef l)); simpl; [|discriminate].
      all: intros [= <-]; eauto. }
  destruct (stringifyMetadata h info) as [m|e]; [|discriminate].
  simpl. intros [= <-].
  destruct (Hshape m eq_refl) as [->|[text ->]]; [by left|].
  right. exists text. reflexivity.
Qed.

Lemma metadataSuffix_shape_hello :
  LF +:+ "  > [metadata] hello" = ""
  ∨ ∃ text, LF +:+ "  > [metadata] hello" = LF +:+ "  > [metadata] " +:+ text.
Proof.
  apply (metadataSuffix_shape sample_store (sample (VString "hello"))). reflexivity.
Defined.

(** ** The line of the console format *)

Section LineFacts.

Variable now : string.
Variables colorOpen colorClose : string → string.
Variable callSiteStack : string.
Variable format_json : heap → Info → result string.

Implicit Types (this : ConsoleLogger) (w : winston_Logger) (msg : string)
  (h : heap) (info : Info) (n s : string).

Lemma length_scopeColumn s : String.length (scopeColumn s) = 18.
Proof.
  unfold scopeColumn, SCOPE_MAX_LEN. destruct (18 <? String.length s) eqn:Hlong.
  - apply Nat.ltb_lt in Hlong.
    by destruct (substring_split 18 s) as (rest & _ & Hlen); [lia|].
  - apply Nat.ltb_ge in Hlong. rewrite length_padStart_space. lia.
Qed.

Lemma length_scopeField n info col : scopeField n info = Ok col → String.length col = 18.
Proof.
  unfold scopeField.
  destruct (if ToBoolean (scope info) then scope info else VString n);
    try discriminate.
  intros [= <-]. apply length_scopeColumn.
Qed.

(** X7. A logger made by the constructor with the console format writes
    its own name in the scope column. The line of [debug], [info] and
    [warn] is the time, the level, that column, the coloured message and
    the suffix of the metadata the sink attached (that of the options when
    it is truthy and the message has no printf token): they never add a
    stack trace, whatever error the options hold. *)
Theorem root_logs_under_its_name (options : Opt.t) msg (opts : option loc) h :
  Opt.format options = Some "console" →
  Opt._child options = None →
  let this := (new_ConsoleLogger options).1 in
  let m := Get h (from_option VRef VUndefined opts) "metadata" in
  let attached :=
    if has_token msg then VUndefined else if ToBoolean m then m else VUndefined in
  let logged lvl :=
    suffix ← metadataSuffix h (sample attached);
    Ok ("[" +:+ now +:+ "] " +:+ levelColumn (paint colorOpen colorClose lvl lvl)
          +:+ ": " +:+ scopeColumn (Opt.name options) +:+ " | "
          +:+ paint colorOpen colorClose lvl msg +:+ suffix) in
  debug now colorOpen colorClose format_json this msg opts h = logged "debug" ∧
  info now colorOpen colorClose format_json this msg opts h = logged "info" ∧
  warn now colorOpen colorClose format_json this msg opts h = logged "warn".
Proof.
  intros Hfmt Hchild this m attached logged.
  assert (logger this = createLogger (sanitize (Opt.logLevel options))
                          (ConsoleFormat (Opt.name options))) as Hlogger.
  { subst this. unfold new_ConsoleLogger. simpl. by rewrite Hchild, Hfmt. }
  assert (∀ lvl, winston_log now colorOpen colorClose format_json (logger this)
                   lvl msg (getMetadata h opts) h = logged lvl) as Hlog.
  { intros lvl.
    pose proof (getMetadata_of_this_class h opts) as Hmeta.
    destruct (record_fields lvl msg _ Hmeta) as (_ & _ & _ & Hsc & Hm).
    rewrite (winston_log_shown _ _ _ _ _ (Opt.name options) _ _ _ _
               (scopeColumn (Opt.name options))); [|by rewrite Hlogger|done|].
    2: { rewrite Hlogger. simpl. apply scopeField_name. by left. }
    unfold stackTraceSuffix. rewrite stackTrace_getMetadata. cbn [ToBoolean].
    rewrite (metadataSuffix_ext h _ (sample attached)).
    2: { rewrite Hm. subst attached m. unfold getMetadata.
         destruct (has_token msg); [done|]. destruct opts as [o|]; [|done].
         cbn [from_option]. by destruct (ToBoolean (Get h (VRef o) "metadata")). }
    subst logged. cbn beta.
    destruct (metadataSuffix h (sample attached)) as [suffix|e]; [|done].
    simpl. by rewrite app_empty_r. }
  unfold debug, info, warn. by rewrite !Hlog.
Qed.

(** X9. For every record the callback of [printf] receives with a scope
    that is absent or a string, the message starts after the time, the
    level padded to 15, the scope column and their separators: 26
    characters more than the time and the level take, so at a fixed column
    whenever the coloured level has no more than 15 characters. *)
Theorem message_column n h info (col : string) :
  scopeField n info = Ok col →
  let before :=
    "[" +:+ ToString h (timestamp info) +:+ "] " +:+ levelColumn (level info) +:+ ": "
      +:+ col +:+ " | " in
  printf_callback n h info =
    (suffix ← metadataSuffix h info;
     Ok (before +:+ message info +:+ suffix +:+ stackTraceSuffix h info)) ∧
  String.length before
    = String.length (ToString h (timestamp info)) + 26
      + (15 `max` String.length (level info)) ∧
  (String.length (level info) ≤ 15 →
     String.length before = String.length (ToString h (timestamp info)) + 41).
Proof.
  intros Hcol before.
  assert (String.length before
          = String.length (ToString h (timestamp info)) + 26
            + (15 `max` String.length (level info))) as Hlen.
  { subst before. rewrite !length_append, (length_scopeField _ _ _ Hcol).
    unfold levelColumn. rewrite length_padStart_space. simpl. lia. }
  split; [|split; [exact Hlen | lia]].
  rewrite (printf_callback_line _ _ _ col Hcol). subst before.
  destruct (metadataSuffix h info) as [suffix|e]; [|done]. simpl.
  by rewrite !append_assoc.
Qed.

End LineFacts.

(** ** [traceError] in debug mode *)

Section TraceFacts.

Variable callSiteStack : string.
Implicit Types (this : ConsoleLogger) (h : heap) (o : loc).

(** The stack of an [Error] object. *)
Lemma Get_stack h (l : loc) (message stack : string) (ps : list (string * value)) :
  h !! l = Some (Object (KError message stack) ps) →
  Get h (VRef l) "stack" = VString stack.
Proof. intros Hl. unfold Get. by rewrite Hl. Qed.

(** The options after the two default-filling steps. *)
Lemma fill_defaults_fields o h :
  o < length h →
  let h1 := fill_default o "metadata" (Object KObject []) h in
  let h2 := fill_default o "error" (Object (KError "" callSiteStack) []) h1 in
  (ToBoolean (Get h (VRef o) "metadata") = true →
     Get h2 (VRef o) "metadata" = Get h (VRef o) "metadata") ∧
  (ToBoolean (Get h (VRef o) "metadata") = false →
     Get h2 (VRef o) "metadata" = VRef (length h) ∧
     h2 !! length h = Some (Object KObject [])) ∧
  (ToBoolean (Get h (VRef o) "error") = true →
     Get h2 (VRef o) "error" = Get h (VRef o) "error") ∧
  (ToBoolean (Get h (VRef o) "error") = false →
     Get h2 (VRef o) "error" = VRef (length h1) ∧
     h2 !! length h1 = Some (Object (KError "" callSiteStack) [])).
Proof.
  intros Ho h1 h2.
  pose proof (length_fill_default o "metadata" (Object KObject []) h) as Hlen.
  fold h1 in Hlen.
  assert (Get h1 (VRef o) "error" = Get h (VRef o) "error") as Herr
    by by apply Get_fill_default_ne.
  assert (Get h2 (VRef o) "metadata" = Get h1 (VRef o) "metadata") as Hmeta
    by (apply Get_fill_default_ne; [lia | done]).
  split; [|split; [|split]].
  - intros Hm. rewrite Hmeta. subst h1. by rewrite fill_default_truthy.
  - intros Hm.
    destruct (fill_default_falsy o "metadata" (Object KObject []) h Ho)
      as [Hget Hnew]; [by intros [] | done |].
    fold h1 in Hget, Hnew. split; [by rewrite Hmeta|].
    pose proof (lookup_lt_Some _ _ _ Hnew).
    subst h2. by rewrite lookup_fill_default_ne by lia.
  - intros He. subst h2. rewrite fill_default_truthy by by rewrite Herr. done.
  - intros He. subst h2.
    apply fill_default_falsy; [lia | by intros [] | by rewrite Herr].
Qed.

Lemma fill_defaults_truthy o h :
  o < length h →
  let h2 := fill_default o "error" (Object (KError "" callSiteStack) [])
              (fill_default o "metadata" (Object KObject []) h) in
  ToBoolean (Get h2 (VRef o) "metadata") = true ∧
  ToBoolean (Get h2 (VRef o) "error") = true.
Proof.
  intros Ho h2.
  destruct (fill_defaults_fields o h Ho) as (Hm1 & Hm0 & He1 & He0). fold h2 in Hm1, Hm0, He1, He0.
  split.
  - destruct (ToBoolean (Get h (VRef o) "metadata")) eqn:Hm.
    + by rewrite Hm1.
    + by destruct Hm0 as [-> _].
  - destruct (ToBoolean (Get h (VRef o) "error")) eqn:He.
    + by rewrite He1.
    + by destruct He0 as [-> _].
Qed.

(** With both fields truthy nothing is filled in. *)
Lemma traceError_supplied this o h :
  debugMode this = true →
  ToBoolean (Get h (VRef o) "metadata") = true →
  ToBoolean (Get h (VRef o) "error") = true →
  traceError callSiteStack this (Some o) h
  = (Some [("stackTrace", Get h (Get h (VRef o) "error") "stack");
           ("metadata", Get h (VRef o) "metadata")], h).
Proof.
  intros Hon Hm He. rewrite traceError_on by done. cbn zeta. cbn [fst snd].
  rewrite (fill_default_truthy _ _ _ _ Hm). by rewrite (fill_default_truthy _ _ _ _ He).
Qed.

(** The options [traceError] works on: those of the caller, or new ones. *)
Lemma traceError_missing_error this options h :
  debugMode this = true →
  (options = None ∨
   ∃ o, options = Some o ∧ o < length h ∧ ToBoolean (Get h (VRef o) "error") = false) →
  ∃ M, traceError callSiteStack this options h
       = (Some [("stackTrace", VString callSiteStack); ("metadata", M)],
          (traceError callSiteStack this options h).2) ∧
       ToBoolean M = true.
Proof.
  intros Hon Hopts. rewrite traceError_on by done. cbn zeta.
  set (oh := match options with Some o => (o, h) | None => alloc h (Object KObject []) end).
  assert (oh.1 < length oh.2 ∧ ToBoolean (Get oh.2 (VRef oh.1) "error") = false)
    as [Ho He].
  { subst oh. destruct Hopts as [->|(o & -> & Ho & He)]; [|done].
    unfold alloc. cbn [fst snd]. rewrite length_app. simpl. split; [lia|].
    unfold Get. by rewrite list_lookup_middle. }
  destruct (fill_defaults_fields oh.1 oh.2 Ho) as (_ & _ & _ & Herr).
  destruct (fill_defaults_truthy oh.1 oh.2 Ho) as [Hm _].
  destruct (Herr He) as [Hget Hnew].
  eexists. split; [|exact Hm]. cbn [snd].
  by rewrite Hget, (Get_stack _ _ _ _ _ Hnew).
Qed.

(** X10. In debug mode, when the caller gives no options or options
    without an error, the stack trace is the stack captured at the call
    site inside [traceError], and the metadata returned is never absent. *)
Theorem traceError_captures_call_site this (options : option loc) h :
  debugMode this = true →
  (options = None ∨
   ∃ o, options = Some o ∧ o < length h ∧ ToBoolean (Get h (VRef o) "error") = false) →
  ∃ M, (traceError callSiteStack this options h).1
       = Some [("stackTrace", VString callSiteStack); ("metadata", M)] ∧
       ToBoolean M = true.
Proof.
  intros Hon Hopts.
  destruct (traceError_missing_error this options h Hon Hopts) as (M & Ht & HM).
  exists M. by rewrite Ht.
Qed.

(** X11. In debug mode, options that hold a truthy metadata and an [Error]
    are reported as they are: the stack trace is the stack of that error,
    the metadata is that metadata, and the store is not touched. *)
Theorem traceError_reports_supplied this o e h (X : value) (message stack : string)
    (ps : list (string * value)) :
  debugMode this = true →
  Get h (VRef o) "metadata" = X → ToBoolean X = true →
  Get h (VRef o) "error" = VRef e →
  h !! e = Some (Object (KError message stack) ps) →
  traceError callSiteStack this (Some o) h
  = (Some [("stackTrace", VString stack); ("metadata", X)], h).
Proof.
  intros Hon HX HT He Herr.
  rewrite traceError_supplied by (done || by rewrite ?HX, ?He).
  by rewrite HX, He, (Get_stack _ _ _ _ _ Herr).
Qed.

(** X12. A second call with the same options object changes nothing more
    and returns the same fields: what the first call filled in is found
    there by the second. *)
Theorem traceError_twice this o h :
  o < length h →
  let first := traceError callSiteStack this (Some o) h in
  traceError callSiteStack this (Some o) first.2 = (first.1, first.2).
Proof.
  intros Ho first. subst first.
  destruct (debugMode this) eqn:Hon.
  2: { by rewrite !traceError_not_debug. }
  rewrite (traceError_on callSiteStack this (Some o) h Hon). cbn zeta. cbn [fst snd].
  destruct (fill_defaults_truthy o h Ho) as [Hm He].
  by rewrite traceError_supplied.
Qed.

End TraceFacts.

(** ** [error] and its side fields *)

Section ErrorFacts.

Variable now : string.
Variables colorOpen colorClose : string → string.
Variable callSiteStack : string.
Variable format_json : heap → Info → result string.

Implicit Types (this : ConsoleLogger) (msg : string) (h : heap).

(** Options with neither metadata nor error, in debug mode: the metadata
    returned is a new empty object. *)
Lemma traceError_missing_both this (opts : option loc) h :
  debugMode this = true →
  (opts = None ∨
   ∃ o, opts = Some o ∧ o < length h ∧
        ToBoolean (Get h (VRef o) "metadata") = false ∧
        ToBoolean (Get h (VRef o) "error") = false) →
  ∃ m h', traceError callSiteStack this opts h
          = (Some [("stackTrace", VString callSiteStack); ("metadata", VRef m)], h') ∧
          h' !! m = Some (Object KObject []).
Proof.
  intros Hon Hopts. rewrite traceError_on by done. cbn zeta.
  set (oh := match opts with Some o => (o, h) | None => alloc h (Object KObject []) end).
  assert (oh.1 < length oh.2 ∧
          ToBoolean (Get oh.2 (VRef oh.1) "metadata") = false ∧
          ToBoolean (Get oh.2 (VRef oh.1) "error") = false) as (Ho & Hm & He).
  { subst oh. destruct Hopts as [->|(o & -> & Ho & Hm & He)]; [|done].
    unfold alloc. cbn [fst snd]. rewrite length_app. simpl. split; [lia|].
    unfold Get. by rewrite list_lookup_middle. }
  destruct (fill_defaults_fields callSiteStack oh.1 oh.2 Ho) as (_ & Hmeta & _ & Herr).
  destruct (Hmeta Hm) as [Hgetm Hnewm]. destruct (Herr He) as [Hgete Hnewe].
  eexists _, _. split; [|exact Hnewm].
  by rewrite Hgetm, Hgete, (Get_stack _ _ _ _ _ Hnewe).
Qed.

(** X13. A logger in debug mode with the console format, given no options
    or options without metadata and error, writes under a message without
    printf token the stack captured at the call site, and no metadata
    line: the empty object filled in as metadata does not show. *)
Theorem error_prints_call_site (options : Opt.t) msg (opts : option loc) h :
  Opt.format options = Some "console" →
  Opt.debugMode options = Some true →
  Opt._child options = None →
  callSiteStack ≠ "" →
  has_token msg = false →
  (opts = None ∨
   ∃ o, opts = Some o ∧ o < length h ∧
        ToBoolean (Get h (VRef o) "metadata") = false ∧
        ToBoolean (Get h (VRef o) "error") = false) →
  (error now colorOpen colorClose callSiteStack format_json
     (new_ConsoleLogger options).1 msg opts h).1
  = Ok ("[" +:+ now +:+ "] "
          +:+ levelColumn (paint colorOpen colorClose "error" "error")
          +:+ ": " +:+ scopeColumn (Opt.name options) +:+ " | "
          +:+ paint colorOpen colorClose "error" msg
          +:+ LF +:+ "  > [stackTrace] " +:+ callSiteStack).
Proof.
  intros Hfmt Hdebug Hchild Hstack Htoken Hopts.
  set (this := (new_ConsoleLogger options).1).
  assert (debugMode this = true) as Hon.
  { subst this. unfold new_ConsoleLogger. simpl. by rewrite Hdebug. }
  assert (logger this = createLogger (sanitize (Opt.logLevel options))
                          (ConsoleFormat (Opt.name options))) as Hlogger.
  { subst this. unfold new_ConsoleLogger. simpl. by rewrite Hchild, Hfmt. }
  destruct (traceError_missing_both this opts h Hon Hopts) as (m & h' & Ht & Hm).
  unfold error. rewrite Ht. cbn [fst].
  rewrite (winston_log_shown _ _ _ _ _ (Opt.name options) _ _ _ _
             (scopeColumn (Opt.name options)));
    [|by rewrite Hlogger|right; right; eauto|].
  2: { rewrite Hlogger. simpl. apply scopeField_name. left.
       unfold record. by rewrite Htoken. }
  unfold metadataSuffix, stringifyMetadata, stackTraceSuffix, record.
  rewrite Htoken. simpl. rewrite Hm. simpl.
  by rewrite bool_decide_false by done.
Qed.

(** X14. Without debug mode [error] does not look at its options: metadata
    and error given to it are dropped, the line is the one of a call
    without options and the store stays as it is. *)
Theorem error_ignores_options_without_debug this msg (opts : option loc) h :
  debugMode this = false →
  error now colorOpen colorClose callSiteStack format_json this msg opts h
  = error now colorOpen colorClose callSiteStack format_json this msg None h ∧
  (error now colorOpen colorClose callSiteStack format_json this msg opts h).2 = h.
Proof.
  intros Hoff. unfold error. by rewrite !traceError_not_debug.
Qed.

End ErrorFacts.

(** ** The further properties on the sample logger *)

Lemma root_logs_under_its_name_svc :
  let h := [Object KObject [("metadata", VRef 1)]; Object KObject [("code", VNumber 5)]] in
  Env.info Env.svc "tick" (Some 0) h
  = Ok ("[" +:+ Env.now +:+ "] " +:+ levelColumn (Env.colorize "info" "info")
          +:+ ": " +:+ scopeColumn "svc" +:+ " | " +:+ Env.colorize "info" "tick"
          +:+ LF +:+ "  > [metadata] {" +:+ String dquote "code" +:+ String dquote ":5}").
Proof.
  intros h.
  destruct (root_logs_under_its_name Env.now Env.colorOpen Env.colorClose Env.format_json
              (Env.options (Some "console") None) "tick" (Some 0) h)
    as (_ & Hinfo & _); [reflexivity | reflexivity |].
  unfold Env.info, Env.svc. rewrite Hinfo. reflexivity.
Defined.

Lemma message_column_svc :
  let info :=
    {| level := Env.colorize "info" "info"; message := Env.colorize "info" "tick";
       timestamp := VString Env.now; scope := VString "worker";
       metadata := VUndefined; stackTrace := VUndefined |} in
  let before :=
    "[" +:+ Env.now +:+ "] " +:+ levelColumn (Env.colorize "info" "info") +:+ ": "
      +:+ scopeColumn "worker" +:+ " | " in
  printf_callback "svc" [] info = Ok (before +:+ Env.colorize "info" "tick") ∧
  String.length before = String.length Env.now + 41.
Proof.
  intros info before.
  destruct (message_column "svc" [] info (scopeColumn "worker") eq_refl)
    as (Hline & _ & Hlen).
  split; [rewrite Hline; reflexivity | apply Hlen; simpl; lia].
Defined.

Lemma traceError_captures_call_site_svc :
  ∃ M, (traceError Env.callSiteStack Env.svc_debug None []).1
       = Some [("stackTrace", VString Env.callSiteStack); ("metadata", M)] ∧
       ToBoolean M = true.
Proof.
  apply traceError_captures_call_site; [reflexivity | by left].
Defined.

Lemma traceError_reports_supplied_svc :
  traceError Env.callSiteStack Env.svc_debug (Some 0) supplied_store
  = (Some [("stackTrace", VString "Error: boom"); ("metadata", VRef 1)], supplied_store).
Proof.
  apply (traceError_reports_supplied Env.callSiteStack Env.svc_debug 0 2 supplied_store
           (VRef 1) "boom" "Error: boom" []); reflexivity.
Defined.

Lemma traceError_twice_svc :
  let first := traceError Env.callSiteStack Env.svc_debug (Some 0) [Object KObject []] in
  traceError Env.callSiteStack Env.svc_debug (Some 0) first.2 = (first.1, first.2).
Proof. apply traceError_twice. simpl. lia. Defined.

Lemma error_prints_call_site_svc :
  (Env.error Env.svc_debug "boom" None []).1
  = Ok ("[" +:+ Env.now +:+ "] " +:+ levelColumn (Env.colorize "error" "error")
          +:+ ": " +:+ scopeColumn "svc" +:+ " | " +:+ Env.colorize "error" "boom"
          +:+ LF +:+ "  > [stackTrace] " +:+ Env.callSiteStack).
Proof.
  apply (error_prints_call_site Env.now Env.colorOpen Env.colorClose Env.callSiteStack
           Env.format_json (Env.options (Some "console") (Some true)) "boom" None []);
    [reflexivity | reflexivity | reflexivity | discriminate | reflexivity | by left].
Defined.

Lemma error_ignores_options_svc :
  Env.error Env.svc "boom" (Some 0) supplied_store = Env.error Env.svc "boom" None supplied_store ∧
  (Env.error Env.svc "boom" (Some 0) supplied_store).2 = supplied_store.
Proof.
  apply (error_ignores_options_without_debug Env.now Env.colorOpen Env.colorClose
           Env.callSiteStack Env.format_json Env.svc "boom" (Some 0) supplied_store).
  reflexivity.
Defined.
